(* ===================================================================== *)
(* Duty-schedule analysis: a shallow embedding of the session            *)
(* reconstruction and of the aggregations of duty_analyzer.py,           *)
(* dashboard.py, employee_lookup.py and create_html_dashboard.py, and of  *)
(* the menu of launcher.py.                                              *)
(*                                                                       *)
(* A pandas DataFrame is a sequence of rows in frame order, every cell   *)
(* present, Name and Status text; the loaders say which files load as    *)
(* such a frame.  A parsed timestamp is the number of seconds since      *)
(* 1970-01-01 00:00:00 (the input format "YYYY-MM-DD HH:MM:SS" has       *)
(* one-second resolution); the derived columns Date and Time are the     *)
(* day number and the second of the day.  Durations in hours are exact   *)
(* rationals.                                                            *)
(* ===================================================================== *)

Set Warnings "-notation-overridden,-rewrite-rw,-deprecated-since-9.3".
Set Warnings "-redundant-canonical-projection".

From Stdlib Require Import ZArith QArith Qabs String Ascii Lia OrderedTypeEx DecimalString.
From HB Require Import structures.
From mathcomp Require Import boot.

Set Implicit Arguments.
Unset Strict Implicit.
Unset Printing Implicit Defensive.

(* Numbers are written with their scope: %Z, %Q, %N. *)
Close Scope Q_scope.

(* --------------------------------------------------------------------- *)
(* Column value types: decidable equality and the orders used by sorted() *)
(* --------------------------------------------------------------------- *)

HB.instance Definition _ := hasDecEq.Build Z Z.eqb_spec.
HB.instance Definition _ := hasDecEq.Build ascii Ascii.eqb_spec.
HB.instance Definition _ := hasDecEq.Build string String.eqb_spec.
HB.instance Definition _ := hasDecEq.Build positive Pos.eqb_spec.

Definition Q_to_pair (q : Q) : Z * positive := (Qnum q, Qden q).
Definition pair_to_Q (p : Z * positive) : Q := Qmake p.1 p.2.
Definition Q_pairK : cancel Q_to_pair pair_to_Q :=
  fun q => match q with Qmake _ _ => erefl end.
HB.instance Definition _ := Equality.copy Q (can_type Q_pairK).

(* Python compares str values by code point; on the bytes of a UTF-8
   string that is the lexicographic order String.leb. *)
Definition str_le : rel string := String.leb.
Definition int_le : rel Z := Z.leb.

(* --------------------------------------------------------------------- *)
(* Exceptions                                                            *)
(* --------------------------------------------------------------------- *)

Inductive exn : Type :=
  | FileNotFoundError   (* raised when the glob pattern matches no file  *)
  | ParseError          (* pandas.to_datetime rejects a timestamp string *)
  | AttributeError.     (* attribute access on a value that lacks it     *)

(* A row of a frame as read_csv and to_datetime leave it in general: a
   cell that is empty in the file, or holds an NA marker, is missing (NaN
   in Name and Status, NaT in DateTime; None here).  Name and Status are
   given by their text in the file. *)
Record Loaded : Type := mkLoaded {
  loaded_ID : Z;
  loaded_Name : option string;
  loaded_Status : option string;
  loaded_DateTime : option Z
}.

(* How a call ends: it returns a value, it raises, or (no exception) the
   script goes on with a frame that has a missing cell, or a Name or
   Status cell that read_csv may have read as a number.  The frames
   described from here on (DataFrame) have every cell present, Name and
   Status as text; what the scripts do with another frame is left
   open. *)
Inductive result (A : Type) : Type :=
  | Ok (a : A)
  | Raise (e : exn)
  | Untyped (frame : seq Loaded).

Arguments Ok {A} a.
Arguments Raise {A} e.
Arguments Untyped {A} frame.

Definition bind {A B : Type} (m : result A) (k : A -> result B) : result B :=
  match m with
  | Ok a => k a
  | Raise e => Raise e
  | Untyped frame => Untyped frame
  end.

Notation "x <-- m ;; k" := (bind m (fun x => k))
  (at level 61, m at next level, right associativity).

Fixpoint mapM {A B : Type} (f : A -> result B) (s : seq A) : result (seq B) :=
  match s with
  | [::] => Ok [::]
  | a :: s' => b <-- f a ;; bs <-- mapM f s' ;; Ok (b :: bs)
  end.

(* --------------------------------------------------------------------- *)
(* Rows and frames                                                       *)
(* --------------------------------------------------------------------- *)

(* A line of the CSV file, cell by cell (columns ID, Name, Status,
   DateTime of read_csv(names=[...])); the ID cell holds an integer, the
   other cells are given as text. *)
Record RawRow : Type := mkRawRow {
  raw_ID : Z;
  raw_Name : string;
  raw_Status : string;
  raw_DateTime : string
}.

(* A row after df['DateTime'] = pd.to_datetime(df['DateTime']), in a
   frame without missing cell: Name and Status are text, DateTime is a
   timestamp (seconds since 1970-01-01 00:00:00). *)
Record Row : Type := mkRow {
  ID : Z;
  Name : string;
  Status : string;
  DateTime : Z
}.

Definition DataFrame : Type := seq Row.

Definition row_to_tuple (r : Row) : Z * string * string * Z :=
  (ID r, Name r, Status r, DateTime r).
Definition tuple_to_row (t : Z * string * string * Z) : Row :=
  let: (i, n, s, d) := t in mkRow i n s d.
Definition row_tupleK : cancel row_to_tuple tuple_to_row :=
  fun r => match r with mkRow _ _ _ _ => erefl end.
HB.instance Definition _ := Equality.copy Row (can_type row_tupleK).

(* df['Date'] = df['DateTime'].dt.date ; df['Time'] = df['DateTime'].dt.time *)
Definition Date (r : Row) : Z := (DateTime r / 86400)%Z.
Definition Time (r : Row) : Z := (DateTime r mod 86400)%Z.

Definition DutyOn : string := "DutyOn"%string.
Definition DutyOff : string := "DutyOff"%string.

(* --------------------------------------------------------------------- *)
(* pandas and Python primitives used by the scripts                       *)
(* --------------------------------------------------------------------- *)

(* Series.unique(): the distinct values in order of first appearance. *)
Definition unique {T : eqType} (s : seq T) : seq T := rev (undup (rev s)).

(* Series.nunique() *)
Definition nunique {T : eqType} (s : seq T) : nat := size (unique s).

(* sorted(xs): ascending, stable. *)
Definition sorted_str (s : seq string) : seq string := sort str_le s.
Definition sorted_int (s : seq Z) : seq Z := sort int_le s.

(* df.sort_values('DateTime').  pandas sorts a single column with an
   unstable quicksort by default; the order among rows of equal DateTime
   is not fixed by pandas.  The model takes the stable order; the results
   below that read the first or last row of such a frame only use its
   DateTime, which is the same for every order of the ties. *)
Definition by_DateTime : rel Row := relpre DateTime int_le.
Definition sort_values_DateTime (df : DataFrame) : DataFrame := sort by_DateTime df.

(* df.sort_values(['Name', 'Date', 'DateTime']) : lexicographic *)
Definition by_Name_Date_DateTime : rel Row := fun r1 r2 =>
  if Name r1 == Name r2 then
    if Date r1 == Date r2 then int_le (DateTime r1) (DateTime r2)
    else int_le (Date r1) (Date r2)
  else str_le (Name r1) (Name r2).
Definition sort_values_Name_Date_DateTime (df : DataFrame) : DataFrame :=
  sort by_Name_Date_DateTime df.

(* Series.min() / Series.max(): nan (here None) on an empty column. *)
Definition series_min (s : seq Z) : option Z :=
  if s is x :: s' then Some (foldr Z.min x s') else None.
Definition series_max (s : seq Z) : option Z :=
  if s is x :: s' then Some (foldr Z.max x s') else None.

(* Timedelta.total_seconds() *)
Definition total_seconds (duration : Z) : Q := inject_Z duration.

(* Rounding to the nearest integer, ties to the even one. *)
Definition round_half_even (x : Q) : Z :=
  let n := Qnum x in
  let d := Z.pos (Qden x) in
  let f := (n / d)%Z in
  let r := (n mod d)%Z in
  match (2 * r ?= d)%Z with
  | Lt => f
  | Gt => (f + 1)%Z
  | Eq => if Z.even f then f else (f + 1)%Z
  end.

(* round(x, 2), on exact rationals.  Python evaluates it on a binary
   float: away from an exact decimal tie the result is the nearest
   hundredth of the exact value, as here; at an exact tie (a duration of
   18 seconds more than a multiple of 36) the representation error of the
   float decides the side, where this definition goes to the even
   hundredth.  The statements of the claims hold for either side. *)
Definition round2 (x : Q) : Q := round_half_even (x * 100) # 100.

(* str(int) for a non-negative integer *)
Definition str_int (z : Z) : string := NilZero.string_of_uint (N.to_uint (Z.to_N z)).
Definition two_digits (z : Z) : string :=
  if (z <? 10)%Z then append "0"%string (str_int z) else str_int z.

(* f"{x:.2f}" *)
Definition format_2f (x : Q) : string :=
  let a := Z.abs (round_half_even (x * 100)) in
  append (if (Qnum x <? 0)%Z then "-"%string else ""%string)
    (append (str_int (a / 100)) (append "."%string (two_digits (a mod 100)))).

(* str(t) for a datetime.time given as second of the day: HH:MM:SS *)
Definition str_time (t : Z) : string :=
  append (two_digits (t / 3600))
    (append ":"%string (append (two_digits (t / 60 mod 60))
      (append ":"%string (two_digits (t mod 60))))).

(* --------------------------------------------------------------------- *)
(* Timestamps of the documented input format "YYYY-MM-DD HH:MM:SS"        *)
(* --------------------------------------------------------------------- *)

Definition digit (c : ascii) : option Z :=
  let n := Z.of_nat (nat_of_ascii c) in
  if (48 <=? n)%Z && (n <=? 57)%Z then Some (n - 48)%Z else None.

Definition digits2 (a b : ascii) : option Z :=
  if digit a is Some x then
    if digit b is Some y then Some (10 * x + y)%Z else None
  else None.

Definition digits4 (a b c d : ascii) : option Z :=
  if digits2 a b is Some x then
    if digits2 c d is Some y then Some (100 * x + y)%Z else None
  else None.

Definition is_leap (y : Z) : bool :=
  ((y mod 4 =? 0) && ~~ (y mod 100 =? 0) || (y mod 400 =? 0))%Z.

Definition days_in_month (y m : Z) : Z :=
  if (m =? 2)%Z then (if is_leap y then 29 else 28)%Z
  else if ((m =? 4) || (m =? 6) || (m =? 9) || (m =? 11))%Z then 30%Z
  else 31%Z.

(* Day number of a civil date, day 0 being 1970-01-01. *)
Definition days_from_civil (y m d : Z) : Z :=
  let y' := (if (m <=? 2)%Z then y - 1 else y)%Z in
  let era := (y' / 400)%Z in
  let yoe := (y' - era * 400)%Z in
  let mp := ((m + 9) mod 12)%Z in
  let doy := ((153 * mp + 2) / 5 + d - 1)%Z in
  let doe := (yoe * 365 + yoe / 4 - yoe / 100 + doy)%Z in
  (era * 146097 + doe - 719468)%Z.

Definition civil_timestamp (y m d hh mm ss : Z) : option Z :=
  if [&& (1 <=? m)%Z, (m <=? 12)%Z, (1 <=? d)%Z, (d <=? days_in_month y m)%Z,
         (hh <? 24)%Z, (mm <? 60)%Z & (ss <? 60)%Z]
  then Some (days_from_civil y m d * 86400 + hh * 3600 + mm * 60 + ss)%Z
  else None.

(* pandas.to_datetime restricted to the documented format: a string of
   any other shape is taken as not parseable. *)
Definition iso_to_datetime (s : string) : option Z :=
  match list_ascii_of_string s with
  | [:: y1; y2; y3; y4; s1; m1; m2; s2; d1; d2; sp; h1; h2; c1; n1; n2; c2; e1; e2] =>
      if [&& s1 == "-"%char, s2 == "-"%char, sp == " "%char,
             c1 == ":"%char & c2 == ":"%char] then
        match digits4 y1 y2 y3 y4, digits2 m1 m2, digits2 d1 d2,
              digits2 h1 h2, digits2 n1 n2, digits2 e1 e2 with
        | Some y, Some m, Some d, Some hh, Some mm, Some ss =>
            civil_timestamp y m d hh mm ss
        | _, _, _, _, _, _ => None
        end
      else None
  | _ => None
  end.

(* --------------------------------------------------------------------- *)
(* Loading                                                               *)
(* --------------------------------------------------------------------- *)

(* A file matched by the glob pattern: its path and the rows read_csv
   returns for it. *)
Definition File : Type := (string * seq RawRow)%type.

(* read_csv's default NA markers: a cell with one of these texts is read
   as missing. *)
Definition na_values : seq string :=
  [:: ""; "#N/A"; "#N/A N/A"; "#NA"; "-1.#IND"; "-1.#QNAN"; "-NaN"; "-nan";
      "1.#IND"; "1.#QNAN"; "<NA>"; "N/A"; "NA"; "NULL"; "NaN"; "None"; "n/a";
      "nan"; "null"]%string.

Definition isna (cell : string) : bool := cell \in na_values.

Definition read_cell (cell : string) : option string :=
  if isna cell then None else Some cell.

(* read_csv turns a column into numbers or booleans when every cell of
   it reads as one.  A cell with a character that no such value has
   stays text, and keeps its column text.  The characters of numbers and
   booleans, taken generously: digits, signs, separators, blanks, and the
   letters of the exponent, of inf, infinity, nan, true, false and of
   hexadecimal notation. *)
Definition numeric_chars : string := "0123456789+-.,_eExXiInNfFtTyYaArRuUlLsS".

Fixpoint string_has (p : pred ascii) (s : string) : bool :=
  match s with
  | String c s' => p c || string_has p s'
  | EmptyString => false
  end.

Definition numeric_char (c : ascii) : bool :=
  (nat_of_ascii c <= 32) || string_has (pred1 c) numeric_chars.

Definition text_cell (cell : string) : bool :=
  ~~ isna cell && string_has (predC numeric_char) cell.

(* The row of a DataFrame that a loaded row is, when its cells are all
   present and its Name and Status are text. *)
Definition typed_row (c : Loaded) : option Row :=
  match loaded_Name c, loaded_Status c, loaded_DateTime c with
  | Some n, Some s, Some t =>
      if text_cell n && text_cell s then Some (mkRow (loaded_ID c) n s t)
      else None
  | _, _, _ => None
  end.

Fixpoint typed_rows (frame : seq Loaded) : option DataFrame :=
  match frame with
  | [::] => Some [::]
  | c :: frame' =>
      if typed_row c is Some r then omap (cons r) (typed_rows frame')
      else None
  end.

Definition typed (frame : seq Loaded) : result DataFrame :=
  if typed_rows frame is Some df then Ok df else Untyped frame.

Section Loader.

(* pandas.to_datetime on the text of one cell; None when it raises. *)
Variable to_datetime : string -> option Z.

(* to_datetime on a cell of the column: a missing cell becomes NaT, no
   exception; text is parsed, or the call raises. *)
Definition convert_cell (cell : option string) : result (option Z) :=
  match cell with
  | None => Ok None
  | Some text =>
      match to_datetime text with
      | Some t => Ok (Some t)
      | None => Raise ParseError
      end
  end.

(* One line through read_csv and to_datetime. *)
Definition convert_row (r : RawRow) : result Loaded :=
  t <-- convert_cell (read_cell (raw_DateTime r)) ;;
  Ok (mkLoaded (raw_ID r) (read_cell (raw_Name r)) (read_cell (raw_Status r)) t).

(* df['DateTime'] = pd.to_datetime(df['DateTime']) *)
Definition convert_DateTime (raws : seq RawRow) : result (seq Loaded) :=
  mapM convert_row raws.

(* duty_analyzer.py, analyze_duty_schedule, lines 11-16: no try block,
   an exception reaches the caller. *)
Definition read_duty_csv (csv : seq RawRow) : result DataFrame :=
  frame <-- convert_DateTime csv ;; typed frame.

(* create_html_dashboard.py, lines 12-27. *)
Definition read_sheets (glob : seq File) : result DataFrame :=
  let files := sort (relpre fst str_le) glob in
  if nilp files then Raise FileNotFoundError
  else
    let parts := [seq f.2 | f <- files] in
    let df := flatten parts in
    frame <-- convert_DateTime df ;; typed frame.

Definition create_html_dashboard_load (glob : seq File) : result DataFrame :=
  read_sheets glob.

(* try: ... except Exception as e: st.error(f"Error loading data: {e}");
   return None.  The call itself never raises: it returns the frame, or
   None after an exception.  The second component is what st.error was
   called with. *)
Definition catch_all (body : result DataFrame)
    : result (option DataFrame) * seq exn :=
  match body with
  | Ok df => (Ok (Some df), [::])
  | Raise e => (Ok None, [:: e])
  | Untyped frame => (Untyped frame, [::])
  end.

(* employee_lookup.py, load_data, lines 37-58. *)
Definition load_data (glob : seq File) : result (option DataFrame) * seq exn :=
  catch_all (read_sheets glob).

(* dashboard.py, load_data, lines 41-60: one fixed file; read_csv raises
   FileNotFoundError when it does not exist. *)
Definition dashboard_load_data (csv : option (seq RawRow))
    : result (option DataFrame) * seq exn :=
  catch_all (raws <-- (if csv is Some raws then Ok raws else Raise FileNotFoundError) ;;
             frame <-- convert_DateTime raws ;; typed frame).

End Loader.

(* --------------------------------------------------------------------- *)
(* duty_analyzer.py : create_csv_reports                                  *)
(* --------------------------------------------------------------------- *)

Module Schedule.
Record t : Type := mk {
  Name : string;
  Date : Z;
  Status : string;
  Time : Z;
  DateTime : Z
}.
End Schedule.

Module Daily.
Record t : Type := mk {
  Date : Z;
  Total_DutyOn : nat;
  Total_DutyOff : nat;
  Unique_Employees : nat
}.
End Daily.

Module WH.
Record t : Type := mk {
  Name : string;
  Date : Z;
  Duty_On_Time : Z;
  Duty_Off_Time : Z;
  Work_Hours : Q
}.
End WH.

Definition wh_to_tuple (s : WH.t) : string * Z * Z * Z * Q :=
  (WH.Name s, WH.Date s, WH.Duty_On_Time s, WH.Duty_Off_Time s, WH.Work_Hours s).
Definition tuple_to_wh (t : string * Z * Z * Z * Q) : WH.t :=
  let: (n, d, a, b, h) := t in WH.mk n d a b h.
Definition wh_tupleK : cancel wh_to_tuple tuple_to_wh :=
  fun s => match s with WH.mk _ _ _ _ _ => erefl end.
HB.instance Definition _ := Equality.copy WH.t (can_type wh_tupleK).

Definition schedule_record (record : Row) : Schedule.t :=
  Schedule.mk (Name record) (Date record) (Status record) (Time record)
              (DateTime record).

(* 1. Person-wise duty schedule (lines 100-111) *)
Definition person_schedule (df : DataFrame) : seq Schedule.t :=
  flatten
    [seq let person_data := sort_values_DateTime [seq r <- df | Name r == name] in
         [seq schedule_record record | record <- person_data]
    | name <- sorted_str (unique [seq Name r | r <- df])].

(* 2. Date-wise duty schedule (lines 118-129) *)
Definition date_schedule (df : DataFrame) : seq Schedule.t :=
  flatten
    [seq let date_data := sort_values_DateTime [seq r <- df | Date r == date] in
         [seq schedule_record record | record <- date_data]
    | date <- sorted_int (unique [seq Date r | r <- df])].

(* 3. Daily summary (lines 136-149) *)
Definition daily_summary (df : DataFrame) : seq Daily.t :=
  [seq let date_data := [seq r <- df | Date r == date] in
       let duty_on_count := size [seq r <- date_data | Status r == DutyOn] in
       let duty_off_count := size [seq r <- date_data | Status r == DutyOff] in
       let unique_employees := nunique [seq Name r | r <- date_data] in
       Daily.mk date duty_on_count duty_off_count unique_employees
  | date <- sorted_int (unique [seq Date r | r <- df])].

(* The body of the test at lines 165-177 (and of the same computation at
   duty_analyzer.py 53-58, dashboard.py 322-326, employee_lookup.py
   123-127): iloc[0] of duty_on and iloc[-1] of duty_off, read only when
   neither frame is empty. *)
Definition hours_between (first_on last_off : Z) : Q :=
  let duration := (last_off - first_on)%Z in
  (total_seconds duration / 3600)%Q.

Definition work_hours_record (name : string) (date : Z)
    (duty_on duty_off : DataFrame) : seq WH.t :=
  match duty_on, duty_off with
  | on0 :: _, off0 :: offs =>
      let first_on := DateTime on0 in
      let last_off := DateTime (last off0 offs) in
      let hours := hours_between first_on last_off in
      [:: WH.mk name date (Time on0) (Time (last off0 offs)) (round2 hours)]
  | _, _ => [::]
  end.

(* 4. Employee work hours (lines 156-177) *)
Definition work_hours (df : DataFrame) : seq WH.t :=
  flatten
    [seq let person_data := sort_values_DateTime [seq r <- df | Name r == name] in
         flatten
           [seq let date_data := [seq r <- person_data | Date r == date] in
                let duty_on := [seq r <- date_data | Status r == DutyOn] in
                let duty_off := [seq r <- date_data | Status r == DutyOff] in
                work_hours_record name date duty_on duty_off
           | date <- sorted_int (unique [seq Date r | r <- person_data])]
    | name <- sorted_str (unique [seq Name r | r <- df])].

(* The four files written; employee_work_hours.csv only `if work_hours:`. *)
Record Reports : Type := mkReports {
  duty_schedule_by_person_csv : seq Schedule.t;
  duty_schedule_by_date_csv : seq Schedule.t;
  daily_duty_summary_csv : seq Daily.t;
  employee_work_hours_csv : option (seq WH.t)
}.

Definition create_csv_reports (df : DataFrame) : Reports :=
  let work_hours := work_hours df in
  mkReports (person_schedule df) (date_schedule df) (daily_summary df)
            (if work_hours is [::] then None else Some work_hours).

(* analyze_duty_schedule, lines 31-59: what is printed for an employee,
   date by date: a line for each DutyOn and each DutyOff record with its
   time, and the total duty time (printed with two decimals) when both
   kinds of record exist. *)
Module Listing.
Record t : Type := mk {
  Date : Z;
  Duty_ON : seq Z;
  Duty_OFF : seq Z;
  Total_duty_time : option Q
}.
End Listing.

Definition person_listing (df_sorted : DataFrame) (name : string)
    : seq Listing.t :=
  let person_data := [seq r <- df_sorted | Name r == name] in
  [seq let date_data := [seq r <- person_data | Date r == date] in
       let duty_on_records := [seq r <- date_data | Status r == DutyOn] in
       let duty_off_records := [seq r <- date_data | Status r == DutyOff] in
       Listing.mk date
         [seq Time r | r <- duty_on_records] [seq Time r | r <- duty_off_records]
         (match duty_on_records, duty_off_records with
          | on0 :: _, off0 :: offs =>
              let first_on := DateTime on0 in
              let last_off := DateTime (last off0 offs) in
              Some (hours_between first_on last_off)
          | _, _ => None
          end)
  | date <- sorted_int (unique [seq Date r | r <- person_data])].

Definition schedule_by_person (df : DataFrame)
    : seq (string * seq Listing.t) :=
  let df_sorted := sort_values_Name_Date_DateTime df in
  [seq (name, person_listing df_sorted name)
  | name <- sorted_str (unique [seq Name r | r <- df])].

(* analyze_duty_schedule: load, sort by Name, Date, DateTime (line 23),
   print, then create_csv_reports(df_sorted) (line 87). *)
Definition analyze_duty_schedule (to_datetime : string -> option Z)
    (csv : seq RawRow) : result Reports :=
  df <-- read_duty_csv to_datetime csv ;;
  let df_sorted := sort_values_Name_Date_DateTime df in
  Ok (create_csv_reports df_sorted).

(* --------------------------------------------------------------------- *)
(* dashboard.py : main                                                    *)
(* --------------------------------------------------------------------- *)

Definition All : string := "All"%string.
Definition NA : string := "N/A"%string.

(* The sidebar widgets' values (lines 93-112). *)
Record Filters : Type := mkFilters {
  date_range : seq Z;
  selected_employees : seq string;
  status_filter : string
}.

(* Apply filters (lines 114-131). *)
Definition apply_filters (f : Filters) (df : DataFrame) : DataFrame :=
  let filtered_df := df in
  let filtered_df :=
    if date_range f is [:: start_date; end_date] then
      [seq r <- filtered_df | (start_date <=? Date r)%Z && (Date r <=? end_date)%Z]
    else filtered_df in
  let filtered_df :=
    if (All \notin selected_employees f) && ~~ nilp (selected_employees f) then
      [seq r <- filtered_df | Name r \in selected_employees f]
    else filtered_df in
  if status_filter f != All then
    [seq r <- filtered_df | Status r == status_filter f]
  else filtered_df.

(* Key Metrics row (lines 133-156). *)
Record KeyMetrics : Type := mkKeyMetrics {
  total_records : nat;
  unique_employees : nat;
  duty_on_count : nat;
  duty_off_count : nat;
  date_range_days : Z
}.

(* (a - b).days for two values returned by Series.max() and Series.min():
   on an empty column both are the float nan, nan - nan is a float, and
   a float has no attribute `days`. *)
Definition days_between (a b : option Z) : result Z :=
  match a, b with
  | Some x, Some y => Ok (x - y)%Z
  | _, _ => Raise AttributeError
  end.

Definition key_metrics (filtered_df : DataFrame) : result KeyMetrics :=
  let total_records := size filtered_df in
  let unique_employees := nunique [seq Name r | r <- filtered_df] in
  let duty_on_count := size [seq r <- filtered_df | Status r == DutyOn] in
  let duty_off_count := size [seq r <- filtered_df | Status r == DutyOff] in
  days <-- days_between (series_max [seq Date r | r <- filtered_df])
                        (series_min [seq Date r | r <- filtered_df]) ;;
  Ok (mkKeyMetrics total_records unique_employees duty_on_count duty_off_count
                   (days + 1)%Z).

(* Individual employee analysis: the detailed schedule table (lines
   309-336), built from employee_data = filtered_df[Name == selected]. *)
Module Detail.
Record t : Type := mk {
  Date : Z;
  Name : string;
  Duty_On : string;
  Duty_Off : string;
  Work_Duration : string;
  Total_Records : nat
}.
End Detail.

Definition join_comma (xs : seq string) : string := String.concat ", "%string xs.

Definition times_or_NA (records : DataFrame) : seq string :=
  if ~~ nilp records then [seq str_time (Time r) | r <- records] else [:: NA].

Definition work_duration (duty_on_records duty_off_records : DataFrame) : string :=
  match duty_on_records, duty_off_records with
  | on0 :: _, off0 :: offs =>
      let first_on := DateTime on0 in
      let last_off := DateTime (last off0 offs) in
      let hours := hours_between first_on last_off in
      append (format_2f hours) " hours"%string
  | _, _ => NA
  end.

Definition schedule_data (selected_employee : string) (employee_data : DataFrame)
    : seq Detail.t :=
  [seq let date_records :=
         sort_values_DateTime [seq r <- employee_data | Date r == date] in
       let duty_on_records := [seq r <- date_records | Status r == DutyOn] in
       let duty_off_records := [seq r <- date_records | Status r == DutyOff] in
       let duty_on_times := times_or_NA duty_on_records in
       let duty_off_times := times_or_NA duty_off_records in
       Detail.mk date selected_employee
                 (join_comma duty_on_times) (join_comma duty_off_times)
                 (work_duration duty_on_records duty_off_records)
                 (size date_records)
  | date <- sorted_int (unique [seq Date r | r <- employee_data])].

Definition employee_data (filtered_df : DataFrame) (selected_employee : string)
    : DataFrame :=
  [seq r <- filtered_df | Name r == selected_employee].

(* frame.groupby(key).size(): one entry per key, keys in sorted order.
   groupby leaves out the rows whose key is missing; a DataFrame has
   none. *)
Definition groupby_size {K : eqType} (le : rel K) (key : Row -> K)
    (df : DataFrame) : seq (K * nat) :=
  [seq (k, size [seq r <- df | key r == k]) | k <- sort le (unique [seq key r | r <- df])].

(* column.map(sizes).fillna(0).astype(int), at one key *)
Definition map_fillna0 {K : eqType} (sizes : seq (K * nat)) (k : K) : nat :=
  if [seq kv <- sizes | kv.1 == k] is kv :: _ then kv.2 else 0.

(* Daily Summary tab (lines 420-436); Total_Records is ('Status',
   'count'), as in the Employee Summary tab below. *)
Module DailyTab.
Record t : Type := mk {
  Date : Z;
  Unique_Employees : nat;
  Total_Records : nat;
  Duty_On_Count : nat;
  Duty_Off_Count : nat
}.
End DailyTab.

Definition daily_summary_tab (filtered_df : DataFrame) : seq DailyTab.t :=
  let duty_on_daily :=
    groupby_size int_le Date [seq r <- filtered_df | Status r == DutyOn] in
  let duty_off_daily :=
    groupby_size int_le Date [seq r <- filtered_df | Status r == DutyOff] in
  [seq let group := [seq r <- filtered_df | Date r == date] in
       DailyTab.mk date (nunique [seq Name r | r <- group]) (size group)
                   (map_fillna0 duty_on_daily date) (map_fillna0 duty_off_daily date)
  | date <- sorted_int (unique [seq Date r | r <- filtered_df])].

(* Employee Summary tab (lines 438-455).  Total_Records is ('Status',
   'count'), the number of cells of the group's Status column that are
   not missing: in a DataFrame, where no cell is missing, the number of
   rows of the group.  The names are text, in the order of str. *)
Module EmployeeTab.
Record t : Type := mk {
  Name : string;
  Unique_Days : nat;
  Total_Records : nat;
  First_Activity : option Z;
  Last_Activity : option Z;
  Duty_On_Count : nat;
  Duty_Off_Count : nat
}.
End EmployeeTab.

Definition employee_summary_tab (filtered_df : DataFrame) : seq EmployeeTab.t :=
  let duty_on_emp :=
    groupby_size str_le Name [seq r <- filtered_df | Status r == DutyOn] in
  let duty_off_emp :=
    groupby_size str_le Name [seq r <- filtered_df | Status r == DutyOff] in
  [seq let group := [seq r <- filtered_df | Name r == name] in
       EmployeeTab.mk name (nunique [seq Date r | r <- group]) (size group)
                      (series_min [seq DateTime r | r <- group])
                      (series_max [seq DateTime r | r <- group])
                      (map_fillna0 duty_on_emp name) (map_fillna0 duty_off_emp name)
  | name <- sorted_str (unique [seq Name r | r <- filtered_df])].

(* --------------------------------------------------------------------- *)
(* Vocabulary of the statements                                          *)
(* --------------------------------------------------------------------- *)

(* The events of one status in the (name, date) group of a frame. *)
Definition group (df : DataFrame) (name : string) (date : Z) (status : string)
    : DataFrame :=
  [seq r <- df | [&& Name r == name, Date r == date & Status r == status]].

Definition timestamps (df : DataFrame) : seq Z := [seq DateTime r | r <- df].

(* Earliest and latest of a list of timestamps (0 on the empty list). *)
Definition earliest (ts : seq Z) : Z :=
  if ts is t :: ts' then foldr Z.min t ts' else 0%Z.
Definition latest (ts : seq Z) : Z :=
  if ts is t :: ts' then foldr Z.max t ts' else 0%Z.

(* (latest DutyOff - earliest DutyOn) / 3600 of a group, exactly. *)
Definition exact_hours (df : DataFrame) (name : string) (date : Z) : Q :=
  inject_Z (latest (timestamps (group df name date DutyOff))
            - earliest (timestamps (group df name date DutyOn))) / 3600.

(* Whether a status occurs in the (name, date) group. *)
Definition present (df : DataFrame) (name : string) (date : Z) (status : string)
    : bool :=
  ~~ nilp (group df name date status).

(* The group has at least one DutyOn and at least one DutyOff event. *)
Definition complete (df : DataFrame) (name : string) (date : Z) : bool :=
  present df name date DutyOn && present df name date DutyOff.

(* The session of a group that has both sides. *)
Definition session (df : DataFrame) (name : string) (date : Z) : WH.t :=
  let first_on := earliest (timestamps (group df name date DutyOn)) in
  let last_off := latest (timestamps (group df name date DutyOff)) in
  WH.mk name date (first_on mod 86400)%Z (last_off mod 86400)%Z
        (round2 (exact_hours df name date)).

(* Session reconstruction as the specification words it: group by
   (name, date); in each group take the earliest DutyOn and the latest
   DutyOff timestamp; emit one session when both exist.  Groups are
   visited by name, then by date, in ascending order. *)
Definition names (df : DataFrame) : seq string :=
  sorted_str (unique [seq Name r | r <- df]).
Definition dates_of (df : DataFrame) (name : string) : seq Z :=
  sorted_int (unique [seq Date r | r <- df & Name r == name]).
Definition reconstruct_sessions (df : DataFrame) : seq WH.t :=
  flatten
    [seq flatten
           [seq if complete df name date then [:: session df name date] else [::]
           | date <- dates_of df name]
    | name <- names df].

(* Truncation of a rational to two decimal places, toward zero, as the
   specification words the rounding of duration_hours. *)
Definition truncate2 (x : Q) : Q :=
  Z.quot (Qnum (x * 100)) (Z.pos (Qden (x * 100))) # 100.

(* A raw row whose timestamp to_datetime accepts. *)
Definition parseable (to_datetime : string -> option Z) (r : RawRow) : bool :=
  isSome (to_datetime (raw_DateTime r)).

(* A raw row whose timestamp cell is missing (empty, or an NA marker). *)
Definition missing_timestamp (r : RawRow) : bool := isna (raw_DateTime r).

(* A raw row whose timestamp cell holds text that to_datetime rejects. *)
Definition unparseable (to_datetime : string -> option Z) (r : RawRow) : bool :=
  ~~ missing_timestamp r && ~~ parseable to_datetime r.

(* A raw row with every cell present, Name and Status text. *)
Definition plain_row (r : RawRow) : bool :=
  [&& text_cell (raw_Name r), text_cell (raw_Status r) & ~~ missing_timestamp r].

(* What a raw row is loaded as: in general, and in a DataFrame. *)
Definition loaded_row (to_datetime : string -> option Z) (r : RawRow) : Loaded :=
  mkLoaded (raw_ID r) (read_cell (raw_Name r)) (read_cell (raw_Status r))
           (if missing_timestamp r then None else to_datetime (raw_DateTime r)).
Definition frame_row (to_datetime : string -> option Z) (r : RawRow) : Row :=
  mkRow (raw_ID r) (raw_Name r) (raw_Status r)
        (odflt 0%Z (to_datetime (raw_DateTime r))).

(* All rows of the matched files, in file order. *)
Definition sheet_rows (glob : seq File) : seq RawRow :=
  flatten [seq f.2 | f <- sort (relpre fst str_le) glob].

(* A status the scripts know. *)
Definition recognized (r : Row) : bool :=
  (Status r == DutyOn) || (Status r == DutyOff).

(* The frame df is what dashboard.py's load_data returns for the lines
   csv of its file, or what create_html_dashboard builds from the sheets
   glob: every line was read with all its cells, Name and Status as
   text. *)
Definition loads (to_datetime : string -> option Z) (csv : seq RawRow)
    (glob : seq File) (df : DataFrame) : Prop :=
  dashboard_load_data to_datetime (Some csv) = (Ok (Some df), [::]) \/
  read_sheets to_datetime glob = Ok df.

(* A listing entry under which a Duty ON or Duty OFF line is printed. *)
Definition has_lines (l : Listing.t) : bool :=
  ~~ nilp (Listing.Duty_ON l) || ~~ nilp (Listing.Duty_OFF l).

(* What a run that ends with Ok leaves in employee_work_hours.csv, if it
   writes the file. *)
Definition work_hours_file (run : result Reports) : option (seq WH.t) :=
  if run is Ok reports then employee_work_hours_csv reports else None.

(* Rows of the examples, as read from the file and as loaded. *)
Definition raw (i : Z) (n s t : string) : RawRow := mkRawRow i n s t.

Definition alice_day : seq RawRow :=
  [:: raw 1 "Alice" "DutyOn" "2024-01-01 08:00:00";
      raw 2 "Alice" "DutyOff" "2024-01-01 17:30:00"].

Definition alice_frame : DataFrame :=
  [:: mkRow 1 "Alice" DutyOn 1704096000; mkRow 2 "Alice" DutyOff 1704130200].

Definition alice_two_on : seq RawRow :=
  [:: raw 1 "Alice" "DutyOn" "2024-01-01 08:00:00";
      raw 2 "Alice" "DutyOn" "2024-01-01 08:05:00";
      raw 3 "Alice" "DutyOff" "2024-01-01 17:00:00"].

Definition bob_short : seq RawRow :=
  [:: raw 5 "Bob" "DutyOn" "2024-01-02 08:00:00";
      raw 6 "Bob" "DutyOff" "2024-01-02 08:00:35"].

Definition bob_frame : DataFrame :=
  [:: mkRow 5 "Bob" DutyOn 1704182400; mkRow 6 "Bob" DutyOff 1704182435].

Definition dana_ten_minutes : seq RawRow :=
  [:: raw 9 "Dana" "DutyOn" "2024-01-03 09:00:00";
      raw 10 "Dana" "DutyOff" "2024-01-03 09:10:00"].

Definition dana_frame : DataFrame :=
  [:: mkRow 9 "Dana" DutyOn 1704272400; mkRow 10 "Dana" DutyOff 1704273000].

Definition bob_break : seq RawRow :=
  [:: raw 4 "Bob" "Break" "2024-01-02 12:00:00"].

Definition bob_break_frame : DataFrame :=
  [:: mkRow 4 "Bob" "Break" 1704196800].

Definition carl_backwards : seq RawRow :=
  [:: raw 7 "Carl" "DutyOff" "2024-01-02 08:00:00";
      raw 8 "Carl" "DutyOn" "2024-01-02 17:00:00"].

Definition carl_frame : DataFrame :=
  [:: mkRow 7 "Carl" DutyOff 1704182400; mkRow 8 "Carl" DutyOn 1704214800].

Definition carl_off_only : DataFrame :=
  [:: mkRow 7 "Carl" DutyOff 1704182400].

Definition alice_on_only : DataFrame :=
  [:: mkRow 1 "Alice" DutyOn 1704096000].

Definition bad_timestamp : seq RawRow :=
  [:: raw 1 "Alice" "DutyOn" "2024-01-01 08:00:00";
      raw 2 "Alice" "DutyOff" "yesterday evening"].

(* A line whose timestamp cell is empty: 2,Alice,DutyOff, *)
Definition no_timestamp : seq RawRow :=
  [:: raw 1 "Alice" "DutyOn" "2024-01-01 08:00:00";
      raw 2 "Alice" "DutyOff" EmptyString].

(* The sidebar left at its defaults (the whole date range, all
   employees), apart from the status selector. *)
Definition only_status (df : DataFrame) (status : string) : Filters :=
  mkFilters
    (if series_min [seq Date r | r <- df] is Some min_date then
       if series_max [seq Date r | r <- df] is Some max_date then
         [:: min_date; max_date]
       else [::]
     else [::])
    [:: All] status.

(* --------------------------------------------------------------------- *)
(* Further code of the scripts                                           *)
(* --------------------------------------------------------------------- *)

(* Raw rows, and so files, can be compared. *)
Definition raw_to_tuple (r : RawRow) : Z * string * string * string :=
  (raw_ID r, raw_Name r, raw_Status r, raw_DateTime r).
Definition tuple_to_raw (t : Z * string * string * string) : RawRow :=
  let: (i, n, s, d) := t in mkRawRow i n s d.
Definition raw_tupleK : cancel raw_to_tuple tuple_to_raw :=
  fun r => match r with mkRawRow _ _ _ _ => erefl end.
HB.instance Definition _ := Equality.copy RawRow (can_type raw_tupleK).

Definition schedule_to_tuple (s : Schedule.t) : string * Z * string * Z * Z :=
  (Schedule.Name s, Schedule.Date s, Schedule.Status s, Schedule.Time s,
   Schedule.DateTime s).
Definition tuple_to_schedule (t : string * Z * string * Z * Z) : Schedule.t :=
  let: (n, d, s, t, dt) := t in Schedule.mk n d s t dt.
Definition schedule_tupleK : cancel schedule_to_tuple tuple_to_schedule :=
  fun s => match s with Schedule.mk _ _ _ _ _ => erefl end.
HB.instance Definition _ := Equality.copy Schedule.t (can_type schedule_tupleK).

(* df['Hour'] = df['DateTime'].dt.hour (dashboard.py 54,
   create_html_dashboard.py 28) *)
Definition Hour (r : Row) : Z := (Time r / 3600)%Z.

(* frame.groupby([key, 'Status']).size().reset_index(name='Count'): one
   entry per (key, status) pair that occurs, the pairs in lexicographic
   order (dashboard.py 165, 193, 356, 369; create_html_dashboard.py 50,
   74). *)
Definition lex_le {K : eqType} (leK : rel K) : rel (K * string) :=
  fun a b => if a.1 == b.1 then str_le a.2 b.2 else leK a.1 b.1.

Definition groupby_status_size {K : eqType} (leK : rel K) (key : Row -> K)
    (df : DataFrame) : seq ((K * string) * nat) :=
  groupby_size (lex_le leK) (fun r => (key r, Status r)) df.

Definition daily_stats (df : DataFrame) : seq ((Z * string) * nat) :=
  groupby_status_size int_le Date df.
Definition hourly_stats (df : DataFrame) : seq ((Z * string) * nat) :=
  groupby_status_size int_le Hour df.

(* create_html_dashboard.py 51-52: the two series of the daily chart *)
Definition duty_on_daily (df : DataFrame) : seq ((Z * string) * nat) :=
  [seq kv <- daily_stats df | kv.1.2 == DutyOn].
Definition duty_off_daily (df : DataFrame) : seq ((Z * string) * nat) :=
  [seq kv <- daily_stats df | kv.1.2 == DutyOff].

(* Series.get(key, default) on the result of groupby(...).size() *)
Definition series_get {K : eqType} (sizes : seq (K * nat)) (k : K) (default : nat)
    : nat :=
  if [seq kv <- sizes | kv.1 == k] is kv :: _ then kv.2 else default.

(* create_html_dashboard.py 262-285: the rows of the employee summary
   table; total is ('Status', 'count'), the number of rows of the group
   in a frame without missing cell. *)
Module HtmlRow.
Record t : Type := mk {
  Employee : string;
  Total_Records : nat;
  Duty_On : nat;
  Duty_Off : nat;
  Unique_Days : nat
}.
End HtmlRow.

Definition html_employee_rows (df : DataFrame) : seq HtmlRow.t :=
  let duty_on_counts :=
    groupby_size str_le Name [seq r <- df | Status r == DutyOn] in
  let duty_off_counts :=
    groupby_size str_le Name [seq r <- df | Status r == DutyOff] in
  [seq let group := [seq r <- df | Name r == name] in
       let total := size group in
       let days := nunique [seq Date r | r <- group] in
       let duty_on := series_get duty_on_counts name 0 in
       let duty_off := series_get duty_off_counts name 0 in
       HtmlRow.mk name total duty_on duty_off days
  | name <- sorted_str (unique [seq Name r | r <- df])].

(* The order of duty_schedule_by_person.csv: by name, and by DateTime
   among the rows of one name. *)
Definition by_person_order : rel Schedule.t := fun a b =>
  if Schedule.Name a == Schedule.Name b then
    int_le (Schedule.DateTime a) (Schedule.DateTime b)
  else str_le (Schedule.Name a) (Schedule.Name b).

(* The order of duty_schedule_by_date.csv: chronological. *)
Definition chronological : rel Schedule.t := fun a b =>
  int_le (Schedule.DateTime a) (Schedule.DateTime b).

(* The order of employee_work_hours.csv: by name, and by strictly
   increasing date among the rows of one name. *)
Definition by_name_then_date : rel WH.t := fun a b =>
  if WH.Name a == WH.Name b then (WH.Date a <? WH.Date b)%Z
  else str_le (WH.Name a) (WH.Name b).

(* Whether a row passes the sidebar filters, read off the three tests
   of dashboard.py 117-131. *)
Definition passes (f : Filters) (r : Row) : bool :=
  [&& (if date_range f is [:: start_date; end_date]
       then (start_date <=? Date r)%Z && (Date r <=? end_date)%Z else true),
      (if (All \notin selected_employees f) && ~~ nilp (selected_employees f)
       then Name r \in selected_employees f else true)
    & (if status_filter f != All then Status r == status_filter f else true)].

(* First_Activity and Last_Activity of a row of the Employee Summary tab
   are both present and in order. *)
Definition activity_in_order (t : EmployeeTab.t) : bool :=
  if EmployeeTab.First_Activity t is Some a then
    if EmployeeTab.Last_Activity t is Some b then (a <=? b)%Z else false
  else false.

(* --------------------------------------------------------------------- *)
(* employee_lookup.py                                                    *)
(* --------------------------------------------------------------------- *)

(* The civil date (year, month, day) of a day number, day 0 being
   1970-01-01 (proleptic Gregorian calendar, as datetime.date). *)
Definition civil_from_days (z : Z) : Z * Z * Z :=
  let z := (z + 719468)%Z in
  let era := (z / 146097)%Z in
  let doe := (z - era * 146097)%Z in
  let yoe := ((doe - doe / 1460 + doe / 36524 - doe / 146096) / 365)%Z in
  let y := (yoe + era * 400)%Z in
  let doy := (doe - (365 * yoe + yoe / 4 - yoe / 100))%Z in
  let mp := ((5 * doy + 2) / 153)%Z in
  let d := (doy - (153 * mp + 2) / 5 + 1)%Z in
  let m := (if mp <? 10 then mp + 3 else mp - 9)%Z in
  ((if m <=? 2 then y + 1 else y)%Z, m, d).

Definition four_digits (z : Z) : string :=
  append (two_digits (z / 100)) (two_digits (z mod 100)).

(* date.strftime('%Y-%m-%d'), also str(date) *)
Definition strftime_Ymd (date : Z) : string :=
  let: (y, m, d) := civil_from_days date in
  append (four_digits y)
    (append "-"%string (append (two_digits m) (append "-"%string (two_digits d)))).

(* date.strftime('%A'): 1970-01-01 was a Thursday *)
Definition strftime_A (date : Z) : string :=
  nth ""%string
    [:: "Monday"; "Tuesday"; "Wednesday"; "Thursday"; "Friday"; "Saturday";
        "Sunday"]%string
    (Z.to_nat ((date + 3) mod 7)).

(* format_time_list (lines 60-64) *)
Definition format_time_list (times : seq Z) : string :=
  if nilp times then "No records"%string
  else join_comma [seq str_time t | t <- times].

(* df.sort_values(['Date', 'DateTime']) *)
Definition by_Date_DateTime : rel Row := fun r1 r2 =>
  if Date r1 == Date r2 then int_le (DateTime r1) (DateTime r2)
  else int_le (Date r1) (Date r2).
Definition sort_values_Date_DateTime (df : DataFrame) : DataFrame :=
  sort by_Date_DateTime df.

(* line 87 *)
Definition lookup_employee_data (df : DataFrame) (selected_employee : string)
    : DataFrame :=
  sort_values_Date_DateTime [seq r <- df | Name r == selected_employee].

Module Lookup.
Record t : Type := mk {
  Date : string;
  Day : string;
  Name : string;
  Duty_On : string;
  Duty_Off : string;
  Work_Duration : string;
  Total_Records : nat
}.
End Lookup.

(* lines 121-128 *)
Definition lookup_work_duration (duty_on_records duty_off_records : DataFrame)
    : string :=
  match duty_on_records, duty_off_records with
  | on0 :: _, off0 :: offs =>
      let first_on := DateTime on0 in
      let last_off := DateTime (last off0 offs) in
      let hours := hours_between first_on last_off in
      append (format_2f hours) " hours"%string
  | _, _ => ""%string
  end.

(* lines 108-138 *)
Definition lookup_schedule (selected_employee : string) (employee_data : DataFrame)
    : seq Lookup.t :=
  [seq let date_data :=
         sort_values_DateTime [seq r <- employee_data | Date r == date] in
       let duty_on_records := [seq r <- date_data | Status r == DutyOn] in
       let duty_off_records := [seq r <- date_data | Status r == DutyOff] in
       let duty_on_times := [seq Time r | r <- duty_on_records] in
       let duty_off_times := [seq Time r | r <- duty_off_records] in
       Lookup.mk (strftime_Ymd date) (strftime_A date) selected_employee
                 (format_time_list duty_on_times) (format_time_list duty_off_times)
                 (lookup_work_duration duty_on_records duty_off_records)
                 (size date_data)
  | date <- sorted_int (unique [seq Date r | r <- employee_data])].

(* Series.mode(): the most frequent values, ascending *)
Definition mode (xs : seq Z) : seq Z :=
  let values := sorted_int (unique xs) in
  let most := foldr maxn 0 [seq count_mem v xs | v <- values] in
  [seq v <- values | count_mem v xs == most].

(* Quick insights (lines 170-195).  The average is None where Python
   would divide by zero; the two date values are None on an empty frame. *)
Record Insights : Type := mkInsights {
  total_days : nat;
  total_duty_on : nat;
  total_duty_off : nat;
  average_records_per_day : option Q;
  first_date : option Z;
  last_date : option Z;
  most_common_duty_on_hour : option Z
}.

Definition insights (employee_data : DataFrame) : Insights :=
  let total_days := nunique [seq Date r | r <- employee_data] in
  let total_duty_on := size [seq r <- employee_data | Status r == DutyOn] in
  let total_duty_off := size [seq r <- employee_data | Status r == DutyOff] in
  let average :=
    if total_days == 0 then None
    else Some (inject_Z (Z.of_nat (total_duty_on + total_duty_off))
               / inject_Z (Z.of_nat total_days))%Q in
  let on_hours := [seq Hour r | r <- employee_data & Status r == DutyOn] in
  mkInsights total_days total_duty_on total_duty_off average
    (series_min [seq Date r | r <- employee_data])
    (series_max [seq Date r | r <- employee_data])
    (if ~~ nilp on_hours then
       if mode on_hours is h :: _ then Some h else None
     else None).

(* employee_data.tail(5)[['Date', 'Status', 'Time']] (lines 198-201) *)
Definition recent_records (employee_data : DataFrame) : seq (string * string * Z) :=
  [seq (strftime_Ymd (Date r), Status r, Time r)
  | r <- drop (size employee_data - 5) employee_data].

(* What main shows (lines 71-219), for the value of the select box. *)
Inductive LookupView : Type :=
  | Landing (available : seq (string * nat))
  | NoRecords (employee : string)
  | Page (schedule : seq Lookup.t) (quick : Insights)
         (recent : seq (string * string * Z)).

Definition lookup_options (df : DataFrame) : seq string :=
  ""%string :: sorted_str (unique [seq Name r | r <- df]).

Definition lookup_main (df : DataFrame) (selected_employee : string) : LookupView :=
  if selected_employee != ""%string then
    let employee_data := lookup_employee_data df selected_employee in
    if ~~ nilp employee_data then
      Page (lookup_schedule selected_employee employee_data)
           (insights employee_data) (recent_records employee_data)
    else NoRecords selected_employee
  else
    Landing [seq (emp, size [seq r <- df | Name r == emp])
            | emp <- sorted_str (unique [seq Name r | r <- df])].

(* Whether a cell starts with a character of the given kind. *)
Definition starts_with (p : pred ascii) (cell : string) : bool :=
  if cell is String c _ then p c else false.

(* Reading the dashboard's placeholders in the lookup tool's words. *)
Definition no_records (cell : string) : string :=
  if cell == NA then "No records"%string else cell.
Definition blank (cell : string) : string :=
  if cell == NA then ""%string else cell.

(* --------------------------------------------------------------------- *)
(* launcher.py                                                           *)
(* --------------------------------------------------------------------- *)

(* str.strip() and str.lower(), on ASCII text *)
Definition isspace (c : ascii) : bool :=
  let n := nat_of_ascii c in
  ((9 <= n) && (n <= 13)) || ((28 <= n) && (n <= 32)).

Fixpoint lstrip (s : string) : string :=
  match s with
  | String c s' => if isspace c then lstrip s' else s
  | EmptyString => EmptyString
  end.

Fixpoint rstrip (s : string) : string :=
  match s with
  | String c s' =>
      let t := rstrip s' in
      if isspace c && (t == EmptyString) then EmptyString else String c t
  | EmptyString => EmptyString
  end.

Definition strip (s : string) : string := rstrip (lstrip s).

Definition lower_char (c : ascii) : ascii :=
  let n := nat_of_ascii c in
  if (65 <= n) && (n <= 90) then ascii_of_nat (n + 32) else c.

Fixpoint lower (s : string) : string :=
  match s with
  | String c s' => String (lower_char c) (lower s')
  | EmptyString => EmptyString
  end.

(* The scripts the launcher starts with subprocess.run. *)
Inductive Script : Type :=
  | streamlit_dashboard      (* -m streamlit run dashboard.py, port 8501 *)
  | streamlit_employee_lookup (* -m streamlit run employee_lookup.py, port 8502 *)
  | create_html_dashboard_py
  | duty_analyzer_py.

(* How a subprocess.run call ends: with a CompletedProcess, with Ctrl+C
   (KeyboardInterrupt), or with an exception such as OSError. *)
Inductive RunOutcome : Type :=
  | Completed (returncode : Z) (stdout stderr : string)
  | Interrupted
  | Failed (e : string).

Record World : Type := mkWorld {
  html_file_exists : bool;            (* duty_dashboard.html *)
  subprocess_run : Script -> RunOutcome
}.

(* The lines the launcher prints, by the line of launcher.py. *)
Inductive Message : Type :=
  | Title                      (* 14-16 *)
  | Options                    (* 21-28 *)
  | Starting (s : Script)      (* 34-38, 51-55 *)
  | Stopped (s : Script)       (* 47, 64 *)
  | Opening_HTML               (* 68 *)
  | HTML_opened                (* 74, 96 *)
  | HTML_not_found             (* 76 *)
  | Generating                 (* 80 *)
  | Stdout (text : string)     (* 88, 113 *)
  | Generated                  (* 89 *)
  | Error_generating           (* 98 *)
  | Stderr (text : string)     (* 99, 117 *)
  | Error (e : string)         (* 101, 119 *)
  | Running_analysis           (* 105 *)
  | Analysis_completed         (* 114 *)
  | Error_in_analysis          (* 116 *)
  | Goodbye                    (* 123 *)
  | Invalid_choice.            (* 127 *)

Inductive Prompt : Type :=
  | Select_an_option           (* 31 *)
  | Open_it_now.               (* 92 *)

Inductive Event : Type :=
  | Print_ (m : Message)
  | Input (p : Prompt)
  | Chdir
  | Run (s : Script)
  | Webbrowser_open.

(* How main ends: it returns, or an exception leaves it. *)
Inductive Ending : Type :=
  | Returned
  | EOFError
  | KeyboardInterrupt
  | Exception (e : string).

(* Options 1 and 2 (lines 33-65) *)
Definition start_streamlit (w : World) (s : Script) : seq Event * Ending :=
  let before := [:: Print_ (Starting s); Chdir; Run s] in
  match subprocess_run w s with
  | Completed _ _ _ => (before, Returned)
  | Interrupted => (before ++ [:: Print_ (Stopped s)], Returned)
  | Failed e => (before, Exception e)
  end.

(* Option 3 (lines 67-77) *)
Definition open_html (w : World) : seq Event * Ending :=
  if html_file_exists w then
    ([:: Print_ Opening_HTML; Webbrowser_open; Print_ HTML_opened], Returned)
  else ([:: Print_ Opening_HTML; Print_ HTML_not_found], Returned).

(* Option 4 (lines 79-102); stdin is what is left of the input. *)
Definition generate_html (w : World) (stdin : seq string) : seq Event * Ending :=
  let before := [:: Print_ Generating; Chdir; Run create_html_dashboard_py] in
  match subprocess_run w create_html_dashboard_py with
  | Completed returncode stdout stderr =>
      if returncode == 0%Z then
        let asked := before ++ [:: Print_ (Stdout stdout); Print_ Generated;
                                   Input Open_it_now] in
        match stdin with
        | line :: _ =>
            let open_choice := lower (strip line) in
            if open_choice == "y"%string then
              (asked ++ [:: Webbrowser_open; Print_ HTML_opened], Returned)
            else (asked, Returned)
        | [::] => (asked ++ [:: Print_ (Error "EOF when reading a line"%string)],
                   Returned)
        end
      else (before ++ [:: Print_ Error_generating; Print_ (Stderr stderr)], Returned)
  | Interrupted => (before, KeyboardInterrupt)
  | Failed e => (before ++ [:: Print_ (Error e)], Returned)
  end.

(* Option 5 (lines 104-120) *)
Definition run_analysis (w : World) : seq Event * Ending :=
  let before := [:: Print_ Running_analysis; Chdir; Run duty_analyzer_py] in
  match subprocess_run w duty_analyzer_py with
  | Completed returncode stdout stderr =>
      if returncode == 0%Z then
        (before ++ [:: Print_ (Stdout stdout); Print_ Analysis_completed], Returned)
      else (before ++ [:: Print_ Error_in_analysis; Print_ (Stderr stderr)], Returned)
  | Interrupted => (before, KeyboardInterrupt)
  | Failed e => (before ++ [:: Print_ (Error e)], Returned)
  end.

(* The while loop (lines 30-128), over the lines typed. *)
Fixpoint menu_loop (w : World) (stdin : seq string) : seq Event * Ending :=
  match stdin with
  | [::] => ([:: Input Select_an_option], EOFError)
  | line :: stdin' =>
      let choice := strip line in
      let: (events, ending) :=
        if choice == "1"%string then start_streamlit w streamlit_dashboard
        else if choice == "2"%string then start_streamlit w streamlit_employee_lookup
        else if choice == "3"%string then open_html w
        else if choice == "4"%string then generate_html w stdin'
        else if choice == "5"%string then run_analysis w
        else if choice == "6"%string then ([:: Print_ Goodbye], Returned)
        else let: (events, ending) := menu_loop w stdin' in
             (Print_ Invalid_choice :: events, ending)
      in (Input Select_an_option :: events, ending)
  end.

Definition launcher_main (w : World) (stdin : seq string) : seq Event * Ending :=
  let: (events, ending) := menu_loop w stdin in
  ([:: Print_ Title; Print_ Options] ++ events, ending).

Definition is_choice (choice : string) : bool :=
  choice \in [:: "1"; "2"; "3"; "4"; "5"; "6"]%string.

Definition is_Run (e : Event) : bool := if e is Run _ then true else false.
Definition is_Webbrowser_open (e : Event) : bool :=
  if e is Webbrowser_open then true else false.
Definition is_Invalid_choice (e : Event) : bool :=
  if e is Print_ Invalid_choice then true else false.

(* ===================================================================== *)
(* Properties                                                            *)
(* ===================================================================== *)

(* --------------------------------------------------------------------- *)
(* The example frames are what the loader makes of the example rows      *)
(* --------------------------------------------------------------------- *)

Lemma example_frames_loaded :
  [/\ read_duty_csv iso_to_datetime alice_day = Ok alice_frame,
      read_duty_csv iso_to_datetime bob_short = Ok bob_frame,
      read_duty_csv iso_to_datetime bob_break = Ok bob_break_frame,
      read_duty_csv iso_to_datetime carl_backwards = Ok carl_frame
    & days_from_civil 2024 1 1 = 19723%Z /\ days_from_civil 2024 1 2 = 19724%Z].
Proof. by split; vm_compute. Qed.

(* --------------------------------------------------------------------- *)
(* The orders                                                            *)
(* --------------------------------------------------------------------- *)

Lemma int_le_total : total int_le.
Proof.
move=> x y; rewrite /int_le.
by case: (Z.leb_spec x y) => //; case: (Z.leb_spec y x) => //; lia.
Qed.

Lemma int_le_trans : transitive int_le.
Proof. move=> y x z /Z.leb_le Hxy /Z.leb_le Hyz; apply/Z.leb_le; lia. Qed.

Lemma int_le_antisym : antisymmetric int_le.
Proof. move=> x y /andP [/Z.leb_le Hxy /Z.leb_le Hyx]; lia. Qed.

Lemma str_le_total : total str_le.
Proof.
move=> x y; rewrite /str_le.
by case: (String.leb_total x y) => ->; rewrite ?orbT.
Qed.

Lemma str_le_antisym : antisymmetric str_le.
Proof. by move=> x y /andP [Hxy Hyx]; apply: String.leb_antisym. Qed.

Lemma str_le_trans : transitive str_le.
Proof.
move=> y x z; rewrite /str_le /String.leb.
case Exy: (String.compare x y) => // _; case Eyz: (String.compare y z) => // _.
- by move/String_as_OT.cmp_eq: Exy Eyz => -> ->.
- by move/String_as_OT.cmp_eq: Exy Eyz => -> ->.
- by move/String_as_OT.cmp_eq: Eyz Exy => <- ->.
- have Hxz: String_as_OT.lt x z.
    apply: (@String_as_OT.lt_trans x y z); exact/String_as_OT.cmp_lt.
  by move/String_as_OT.cmp_lt: Hxz; rewrite /String_as_OT.cmp => ->.
Qed.

Lemma by_DateTime_total : total by_DateTime.
Proof. by move=> x y; exact: int_le_total. Qed.

Lemma by_DateTime_trans : transitive by_DateTime.
Proof. by move=> y x z; exact: int_le_trans. Qed.

(* --------------------------------------------------------------------- *)
(* unique and sorted                                                     *)
(* --------------------------------------------------------------------- *)

Section Unique.
Variable T : eqType.
Implicit Types s : seq T.

Lemma mem_unique s : unique s =i s.
Proof. by move=> x; rewrite /unique mem_rev mem_undup mem_rev. Qed.

Lemma unique_uniq s : uniq (unique s).
Proof. by rewrite /unique rev_uniq undup_uniq. Qed.

Variable le : rel T.
Hypothesis le_total : total le.
Hypothesis le_trans : transitive le.
Hypothesis le_antisym : antisymmetric le.

Lemma sort_unique_uniq s : uniq (sort le (unique s)).
Proof. by rewrite sort_uniq unique_uniq. Qed.

(* The sorted distinct values only depend on which values occur. *)
Lemma sort_unique_eq s1 s2 :
  s1 =i s2 -> sort le (unique s1) = sort le (unique s2).
Proof.
move=> E; apply/perm_sortP => //.
apply: uniq_perm; rewrite ?unique_uniq // => x.
by rewrite !mem_unique.
Qed.

(* Restricted to a predicate, likewise. *)
Lemma filter_sort_unique_eq (P : pred T) s1 s2 :
  [seq x <- s1 | P x] =i [seq x <- s2 | P x] ->
  [seq x <- sort le (unique s1) | P x] = [seq x <- sort le (unique s2) | P x].
Proof.
move=> E; rewrite !filter_sort //; apply/perm_sortP => //.
apply: uniq_perm; rewrite ?filter_uniq ?unique_uniq // => x.
by move: (E x); rewrite !mem_filter !mem_unique.
Qed.

End Unique.

(* --------------------------------------------------------------------- *)
(* Loops that append to a list                                           *)
(* --------------------------------------------------------------------- *)

Section Flatten.
Variables (T : eqType) (A : Type).
Implicit Types (g : T -> seq A) (l : seq T).

(* Iterations that append nothing can be skipped. *)
Lemma flatten_map_filter (P : pred T) g l :
  (forall x, x \in l -> ~~ P x -> g x = [::]) ->
  flatten [seq g x | x <- l] = flatten [seq g x | x <- l & P x].
Proof.
elim: l => [|x l IH] //= H.
have Hl: forall y, y \in l -> ~~ P y -> g y = [::].
  by move=> y yl; apply: H; rewrite in_cons yl orbT.
case Px: (P x) => /=; first by rewrite IH.
by rewrite (H x) ?mem_head ?Px //= IH.
Qed.

Lemma eq_flatten_map g1 g2 l :
  (forall x, x \in l -> g1 x = g2 x) ->
  flatten [seq g1 x | x <- l] = flatten [seq g2 x | x <- l].
Proof. by move=> H; congr flatten; apply/eq_in_map. Qed.

(* When only the iteration at x appends, the result is what it appends. *)
Lemma flatten_map_only g l x :
  uniq l -> x \in l -> (forall y, y \in l -> y != x -> g y = [::]) ->
  flatten [seq g y | y <- l] = g x.
Proof.
move=> Ul xl H.
rewrite (@flatten_map_filter (pred1 x)).
  by move=> y yl /= ne; apply: H.
by rewrite filter_pred1_uniq //= cats0.
Qed.

End Flatten.

(* --------------------------------------------------------------------- *)
(* Earliest and latest timestamps; first and last row of a sorted frame   *)
(* --------------------------------------------------------------------- *)

Lemma foldr_min_le (t : Z) (ts : seq Z) :
  (foldr Z.min t ts <= t)%Z /\ (forall x, x \in ts -> (foldr Z.min t ts <= x)%Z).
Proof.
elim: ts => [|y ts [IH1 IH2]] /=; first by split=> //; lia.
split=> [|x]; first by lia.
rewrite in_cons => /orP [/eqP -> | /IH2]; lia.
Qed.

Lemma foldr_min_mem (t : Z) (ts : seq Z) : foldr Z.min t ts \in t :: ts.
Proof.
elim: ts => [|y ts IH] /=; first by rewrite mem_head.
case: (Z.min_spec y (foldr Z.min t ts)) => [[_ ->]|[_ ->]].
  by rewrite !in_cons eqxx orbT.
by move: IH; rewrite !in_cons => /orP [->|->] //; rewrite !orbT.
Qed.

Lemma foldr_max_ge (t : Z) (ts : seq Z) :
  (t <= foldr Z.max t ts)%Z /\ (forall x, x \in ts -> (x <= foldr Z.max t ts)%Z).
Proof.
elim: ts => [|y ts [IH1 IH2]] /=; first by split=> //; lia.
split=> [|x]; first by lia.
rewrite in_cons => /orP [/eqP -> | /IH2]; lia.
Qed.

Lemma foldr_max_mem (t : Z) (ts : seq Z) : foldr Z.max t ts \in t :: ts.
Proof.
elim: ts => [|y ts IH] /=; first by rewrite mem_head.
case: (Z.max_spec y (foldr Z.max t ts)) => [[_ ->]|[_ ->]].
  by move: IH; rewrite !in_cons => /orP [->|->] //; rewrite !orbT.
by rewrite !in_cons eqxx orbT.
Qed.

(* earliest ts is a member of ts below every member; latest ts one above. *)
Lemma earliestP (ts : seq Z) :
  ts != [::] ->
  earliest ts \in ts /\ (forall x, x \in ts -> (earliest ts <= x)%Z).
Proof.
case: ts => [|t ts] //= _; split; first exact: foldr_min_mem.
move=> x; rewrite in_cons => /orP [/eqP ->|].
  by case: (foldr_min_le t ts).
by case: (foldr_min_le t ts) => _; apply.
Qed.

Lemma latestP (ts : seq Z) :
  ts != [::] ->
  latest ts \in ts /\ (forall x, x \in ts -> (x <= latest ts)%Z).
Proof.
case: ts => [|t ts] //= _; split; first exact: foldr_max_mem.
move=> x; rewrite in_cons => /orP [/eqP ->|].
  by case: (foldr_max_ge t ts).
by case: (foldr_max_ge t ts) => _; apply.
Qed.

Lemma path_last_max (x : Z) (xs : seq Z) :
  path int_le x xs -> forall y, y \in x :: xs -> int_le y (last x xs).
Proof.
elim: xs x => [|z xs IH] x /=.
  by move=> _ y; rewrite inE => /eqP ->; exact/Z.leb_le/Z.le_refl.
case/andP=> xz pz y; rewrite in_cons => /orP [/eqP ->|]; last exact: IH.
by apply: (int_le_trans xz); apply: IH => //; rewrite mem_head.
Qed.

(* The first and last value of sorted(ts). *)
Lemma sorted_int_first_last (ts : seq Z) (x : Z) (xs : seq Z) :
  sorted_int ts = x :: xs -> x = earliest ts /\ last x xs = latest ts.
Proof.
move=> E.
have tsN: ts != [::] by move: E; rewrite /sorted_int; case: ts => //; rewrite sortE.
have mem: x :: xs =i ts by move=> y; rewrite -E mem_sort.
have srt: sorted int_le (x :: xs) by rewrite -E; exact: sort_sorted int_le_total _.
have [e_in e_le] := earliestP tsN; have [l_in l_ge] := latestP tsN.
split.
- have H1: (earliest ts <= x)%Z by apply: e_le; rewrite -mem mem_head.
  have /allP H2 := order_path_min int_le_trans srt.
  move: e_in; rewrite -mem in_cons => /orP [/eqP -> //| /H2 /Z.leb_le]; lia.
- have H1: (last x xs <= latest ts)%Z by apply: l_ge; rewrite -mem mem_last.
  have := path_last_max srt; move/(_ (latest ts)).
  by rewrite mem l_in => /(_ isT) /Z.leb_le; lia.
Qed.

(* The same for the first and last row of frame.sort_values('DateTime'):
   only their DateTime is determined. *)
Lemma sort_values_first_last (frame : DataFrame) (r0 : Row) (rs : seq Row) :
  sort_values_DateTime frame = r0 :: rs ->
  DateTime r0 = earliest (timestamps frame) /\
  DateTime (last r0 rs) = latest (timestamps frame).
Proof.
move=> E.
have: sorted_int (timestamps frame) = DateTime r0 :: [seq DateTime r | r <- rs].
  by rewrite /sorted_int /timestamps sort_map -/by_DateTime -/(sort_values_DateTime _) E.
by move/sorted_int_first_last; rewrite last_map.
Qed.

Lemma sort_values_nil (frame : DataFrame) :
  (sort_values_DateTime frame == [::]) = (frame == [::]).
Proof. by rewrite -!size_eq0 /sort_values_DateTime size_sort. Qed.

(* --------------------------------------------------------------------- *)
(* The work-hours loop computes the specified reconstruction             *)
(* --------------------------------------------------------------------- *)

(* The frames duty_on and duty_off of the loop body are the sorted groups. *)
Lemma duty_frame_group (df : DataFrame) (name : string) (date : Z) (status : string) :
  [seq r <- [seq r <- sort_values_DateTime [seq r <- df | Name r == name]
            | Date r == date]
  | Status r == status]
  = sort_values_DateTime (group df name date status).
Proof.
rewrite /sort_values_DateTime !(filter_sort by_DateTime_total by_DateTime_trans).
rewrite -!filter_predI; congr sort; apply: eq_filter => r /=.
by case: (Name r == name); case: (Date r == date); case: (Status r == status).
Qed.

Lemma work_hours_record_sorted (name : string) (date : Z) (ons offs : DataFrame) :
  work_hours_record name date (sort_values_DateTime ons) (sort_values_DateTime offs)
  = if ~~ nilp ons && ~~ nilp offs then
      [:: WH.mk name date (earliest (timestamps ons) mod 86400)%Z
                (latest (timestamps offs) mod 86400)%Z
                (round2 (inject_Z (latest (timestamps offs)
                                   - earliest (timestamps ons)) / 3600))]
    else [::].
Proof.
rewrite /work_hours_record.
case Eon: (sort_values_DateTime ons) => [|on0 ons'].
  by move/eqP: Eon; rewrite sort_values_nil => /eqP ->.
case Eoff: (sort_values_DateTime offs) => [|off0 offs'].
  by move/eqP: Eoff; rewrite sort_values_nil => /eqP ->; rewrite andbF.
have [Hon _] := sort_values_first_last Eon.
have [_ Hoff] := sort_values_first_last Eoff.
have -> : ~~ nilp ons.
  by rewrite /nilp -(size_sort by_DateTime) -/(sort_values_DateTime _) Eon.
have -> /= : ~~ nilp offs.
  by rewrite /nilp -(size_sort by_DateTime) -/(sort_values_DateTime _) Eoff.
by rewrite /Time /hours_between /total_seconds Hon Hoff.
Qed.

Lemma work_hours_body (df : DataFrame) (name : string) (date : Z) :
  let person_data := sort_values_DateTime [seq r <- df | Name r == name] in
  let date_data := [seq r <- person_data | Date r == date] in
  work_hours_record name date [seq r <- date_data | Status r == DutyOn]
                              [seq r <- date_data | Status r == DutyOff]
  = if complete df name date then [:: session df name date] else [::].
Proof. by rewrite /= !duty_frame_group work_hours_record_sorted. Qed.

Lemma person_dates (df : DataFrame) (name : string) :
  sorted_int (unique [seq Date r | r <- sort_values_DateTime [seq r <- df | Name r == name]])
  = dates_of df name.
Proof.
apply: (sort_unique_eq int_le_total int_le_trans int_le_antisym).
by apply: perm_mem; apply: perm_map; rewrite /sort_values_DateTime perm_sort.
Qed.

(* create_csv_reports' work_hours list is the specified reconstruction. *)
Lemma work_hoursE (df : DataFrame) : work_hours df = reconstruct_sessions df.
Proof.
rewrite /work_hours /reconstruct_sessions /names.
apply: eq_flatten_map => name _.
rewrite person_dates; apply: eq_flatten_map => date _.
exact: work_hours_body.
Qed.

(* --------------------------------------------------------------------- *)
(* The order pandas gives to rows of equal DateTime does not matter       *)
(* --------------------------------------------------------------------- *)

Lemma sorted_frame_first_last (frame s : DataFrame) (r0 : Row) (rs : seq Row) :
  perm_eq s frame -> sorted by_DateTime s -> s = r0 :: rs ->
  DateTime r0 = earliest (timestamps frame) /\
  DateTime (last r0 rs) = latest (timestamps frame).
Proof.
move=> P S E.
have /(perm_sortP int_le_total int_le_trans int_le_antisym) Es := perm_map DateTime P.
have: sorted_int (timestamps frame) = [seq DateTime r | r <- s].
  rewrite /sorted_int /timestamps -Es.
  by apply: (sorted_sort int_le_trans); rewrite sorted_map.
by rewrite E /= => /sorted_int_first_last; rewrite last_map.
Qed.

(* Whatever sorted order sort_values('DateTime') returns for
   person_data, the loop body appends the same row. *)
Lemma work_hours_body_any_order (df person_data : DataFrame)
    (name : string) (date : Z) :
  perm_eq person_data [seq r <- df | Name r == name] ->
  sorted by_DateTime person_data ->
  let date_data := [seq r <- person_data | Date r == date] in
  work_hours_record name date [seq r <- date_data | Status r == DutyOn]
                              [seq r <- date_data | Status r == DutyOff]
  = if complete df name date then [:: session df name date] else [::].
Proof.
move=> P S /=.
set ons := [seq r <- _ | Status r == DutyOn].
set offs := [seq r <- _ | Status r == DutyOff].
have G status :
    perm_eq [seq r <- [seq r <- person_data | Date r == date] | Status r == status]
            (group df name date status) /\
    sorted by_DateTime
      [seq r <- [seq r <- person_data | Date r == date] | Status r == status].
  split; last by do 2!apply: (sorted_filter by_DateTime_trans).
  have -> : group df name date status
            = [seq r <- [seq r <- [seq r <- df | Name r == name] | Date r == date]
              | Status r == status].
    rewrite -!filter_predI; apply: eq_filter => r /=.
    by case: (Name r == name); case: (Date r == date); case: (Status r == status).
  by do 2!apply: perm_filter.
have [Pon Son] := G DutyOn; have [Poff Soff] := G DutyOff.
rewrite /complete /present /nilp -(perm_size Pon) -(perm_size Poff) -/ons -/offs.
rewrite /work_hours_record.
case Eon: ons => [|on0 ons'] //; case Eoff: offs => [|off0 offs'] //=.
have [Hon _] := sorted_frame_first_last Pon Son Eon.
have [_ Hoff] := sorted_frame_first_last Poff Soff Eoff.
by rewrite /session /exact_hours /hours_between /total_seconds /Time Hon Hoff.
Qed.

(* --------------------------------------------------------------------- *)
(* The rows emitted for one group                                        *)
(* --------------------------------------------------------------------- *)

Lemma flatten_map_nil (T : eqType) (A : Type) (g : T -> seq A) (l : seq T) :
  (forall x, x \in l -> g x = [::]) -> flatten [seq g x | x <- l] = [::].
Proof.
move=> H; rewrite (@flatten_map_filter _ _ pred0) ?filter_pred0 //.
by move=> x xl _; apply: H.
Qed.

Lemma present_mem (df : DataFrame) (name : string) (date : Z) (status : string) :
  present df name date status -> name \in names df /\ date \in dates_of df name.
Proof.
rewrite /present /nilp size_eq0 -has_filter.
case/hasP=> r rin /and3P [/eqP En /eqP Ed _]; split.
- rewrite /names /sorted_str mem_sort mem_unique -En; exact: map_f.
- rewrite /dates_of /sorted_int mem_sort mem_unique -Ed; apply: map_f.
  by rewrite mem_filter En eqxx.
Qed.

(* The sessions emitted for one (name, date): one when the group has both
   sides, none otherwise. *)
Lemma sessions_of_group (df : DataFrame) (name : string) (date : Z) :
  [seq s <- work_hours df | (WH.Name s == name) && (WH.Date s == date)]
  = if complete df name date then [:: session df name date] else [::].
Proof.
rewrite work_hoursE /reconstruct_sessions filter_flatten -map_comp.
pose cell n d := if [&& complete df n d, n == name & d == date]
                 then [:: session df n d] else [::].
have inner n : [seq s <- flatten [seq if complete df n d then [:: session df n d]
                                      else [::] | d <- dates_of df n]
               | (WH.Name s == name) && (WH.Date s == date)]
             = flatten [seq cell n d | d <- dates_of df n].
  rewrite filter_flatten -map_comp; apply: eq_flatten_map => d _ /=.
  by rewrite /cell; case: (complete df n d) => //=; case: ifP.
rewrite (@eq_flatten_map _ _ _ (fun n => flatten [seq cell n d | d <- dates_of df n]));
  first by move=> n _ /=; rewrite inner.
case C: (complete df name date); last first.
  apply: flatten_map_nil => n _; apply: flatten_map_nil => d _.
  rewrite /cell; case: ifP => // /and3P [Cnd /eqP En /eqP Ed].
  by move: Cnd; rewrite En Ed C.
have [nin din] : name \in names df /\ date \in dates_of df name.
  by case/andP: C => /present_mem.
have Un: uniq (names df) by exact: sort_unique_uniq.
have Ud: uniq (dates_of df name) by exact: sort_unique_uniq.
have On n : n \in names df -> n != name ->
    flatten [seq cell n d | d <- dates_of df n] = [::].
  move=> _ /negbTE nn; apply: flatten_map_nil => d _.
  by rewrite /cell nn andbF.
have Od d : d \in dates_of df name -> d != date -> cell name d = [::].
  by move=> _ /negbTE nd; rewrite /cell nd !andbF.
rewrite (flatten_map_only Un nin On) (flatten_map_only Ud din Od).
by rewrite /cell C !eqxx.
Qed.

(* Every emitted session is the session of a group with both sides. *)
Lemma work_hours_sound (df : DataFrame) (s : WH.t) :
  s \in work_hours df ->
  complete df (WH.Name s) (WH.Date s) /\ s = session df (WH.Name s) (WH.Date s).
Proof.
rewrite work_hoursE /reconstruct_sessions.
case/flattenP=> ss /mapP [n _ ->] /flattenP [c /mapP [d _ ->]].
by case C: (complete df n d) => //; rewrite inE => /eqP -> /=.
Qed.

(* --------------------------------------------------------------------- *)
(* Rounding                                                              *)
(* --------------------------------------------------------------------- *)

(* round_half_even x is an integer nearest to x. *)
Lemma round_half_even_near (x : Q) :
  (Qabs (inject_Z (round_half_even x) - x) <= 1 # 2)%Q.
Proof.
apply/Qabs_Qle_condition.
case: x => n d; rewrite /round_half_even /Qle /Qminus /Qplus /Qopp /inject_Z /=.
have dpos: (0 < Z.pos d)%Z by [].
have E := Z.div_mod n (Z.pos d) ltac:(lia).
have [r0 rd] := Z.mod_pos_bound n (Z.pos d) dpos.
move: E r0 rd; set f := (n / Z.pos d)%Z; set r := (n mod Z.pos d)%Z => E r0 rd.
case: (Z.compare_spec (2 * r) (Z.pos d)) => C.
- case: (Z.even f); split; nia.
- split; nia.
- split; nia.
Qed.

(* round2 x is a number of hundredths within 1/200 of x. *)
Lemma round2_near (x : Q) : (Qabs (round2 x - x) <= 1 # 200)%Q.
Proof.
have := @round_half_even_near (x * 100)%Q.
move/Qabs_Qle_condition => [lo hi]; apply/Qabs_Qle_condition.
move: lo hi; rewrite /round2; move: (round_half_even (x * 100)) => w.
case: x => n d; rewrite /Qle /Qminus /Qplus /Qopp /Qmult /inject_Z.
cbn [Qnum Qden] => lo hi.
by split; nia.
Qed.

(* ===================================================================== *)
(* The claims                                                            *)
(* ===================================================================== *)

(** C1, counterexample: Dana on duty from 09:00:00 to 09:10:00 has one
    session; (latest DutyOff - earliest DutyOn) / 3600 is 600 / 3600 =
    0.1666... hours, but the duration of the session is written as 0.17
    hours, which is not that quotient. *)
Lemma duration_is_not_the_quotient :
  [/\ read_duty_csv iso_to_datetime dana_ten_minutes = Ok dana_frame,
      work_hours_file (analyze_duty_schedule iso_to_datetime dana_ten_minutes)
      = Some [:: WH.mk "Dana" (days_from_civil 2024 1 3)
                       (9 * 3600)%Z (9 * 3600 + 10 * 60)%Z 0.17%Q],
      (exact_hours dana_frame "Dana" (days_from_civil 2024 1 3) == 600 # 3600)%Q
    & ~ (0.17 == exact_hours dana_frame "Dana" (days_from_civil 2024 1 3))%Q].
Proof. by split; vm_compute. Qed.

(** C1, amended: a (name, date) group with at least one DutyOn and at
    least one DutyOff event yields exactly one row of work_hours, from
    the earliest DutyOn to the latest DutyOff of the group; its duration
    is (latest DutyOff timestamp - earliest DutyOn timestamp) / 3600
    hours rounded to two decimals: it is written to Work_Hours as a
    number of hundredths at most 0.005 away from the quotient.
    The rows (1, Alice, DutyOn, 2024-01-01 08:00:00), (2, Alice, DutyOff,
    2024-01-01 17:30:00) give one session of 9.50 hours; DutyOn at 08:00
    and 08:05 with DutyOff at 17:00 give one session from 08:00 to 17:00
    of 9.00 hours. *)
Theorem duty_session_duration :
  (forall (df : DataFrame) (name : string) (date : Z),
     present df name date DutyOn -> present df name date DutyOff ->
     let first_on := earliest (timestamps (group df name date DutyOn)) in
     let last_off := latest (timestamps (group df name date DutyOff)) in
     let hours := (inject_Z (last_off - first_on) / 3600)%Q in
     exists2 w : Z,
       [seq s <- work_hours df | (WH.Name s == name) && (WH.Date s == date)]
       = [:: WH.mk name date (first_on mod 86400)%Z (last_off mod 86400)%Z
                   (w # 100)%Q]
       & (Qabs ((w # 100) - hours) <= 1 # 200)%Q)
  /\ work_hours_file (analyze_duty_schedule iso_to_datetime alice_day)
     = Some [:: WH.mk "Alice" (days_from_civil 2024 1 1)
                      (8 * 3600)%Z (17 * 3600 + 30 * 60)%Z 9.50%Q]
  /\ work_hours_file (analyze_duty_schedule iso_to_datetime alice_two_on)
     = Some [:: WH.mk "Alice" (days_from_civil 2024 1 1)
                      (8 * 3600)%Z (17 * 3600)%Z 9.00%Q].
Proof.
split; last by split; vm_compute.
move=> df name date Pon Poff /=.
exists (round_half_even (exact_hours df name date * 100)).
  by rewrite sessions_of_group /complete Pon Poff.
exact: round2_near.
Qed.

Lemma duty_session_duration_witness :
  present alice_frame "Alice" 19723 DutyOn /\
  present alice_frame "Alice" 19723 DutyOff /\
  exists2 w : Z,
    [seq s <- work_hours alice_frame
    | (WH.Name s == "Alice"%string) && (WH.Date s == 19723%Z)]
    = [:: WH.mk "Alice" 19723 28800 63000 (w # 100)%Q]
    & (Qabs ((w # 100) - (34200 # 3600)) <= 1 # 200)%Q.
Proof.
split; first by vm_compute.
split; first by vm_compute.
exact: (proj1 duty_session_duration alice_frame "Alice"%string 19723%Z erefl erefl).
Defined.

(** C2, counterexample: Bob on duty from 08:00:00 to 08:00:35 worked
    35 / 3600 = 0.0097... hours; truncated to two decimals that is 0.00,
    but the row written to the work-hours file carries 0.01. *)
Lemma work_hours_not_truncated :
  work_hours_file (analyze_duty_schedule iso_to_datetime bob_short)
  = Some [:: WH.mk "Bob" (days_from_civil 2024 1 2)
                   (8 * 3600)%Z (8 * 3600 + 35)%Z 0.01%Q]
  /\ (exact_hours bob_frame "Bob" (days_from_civil 2024 1 2) == 35 # 3600)%Q
  /\ truncate2 (exact_hours bob_frame "Bob" (days_from_civil 2024 1 2)) = 0.00%Q
  /\ ~ (0.01 == truncate2 (exact_hours bob_frame "Bob" (days_from_civil 2024 1 2)))%Q.
Proof. by do !split; vm_compute. Qed.

(** C2, amended: for every emitted row, Work_Hours is the exact duration
    in hours rounded to two decimal places: a whole number of hundredths
    at distance at most 0.005 from (latest DutyOff - earliest DutyOn) /
    3600. *)
Theorem work_hours_rounded (df : DataFrame) (s : WH.t) :
  s \in work_hours df ->
  (exists w : Z, WH.Work_Hours s = (w # 100)%Q) /\
  (Qabs (WH.Work_Hours s - exact_hours df (WH.Name s) (WH.Date s)) <= 1 # 200)%Q.
Proof.
case/work_hours_sound=> _ ->; rewrite /session /=; split.
  by exists (round_half_even (exact_hours df (WH.Name s) (WH.Date s) * 100)).
exact: round2_near.
Qed.

Lemma work_hours_rounded_witness :
  WH.mk "Bob" 19724 28800 28835 0.01%Q \in work_hours bob_frame /\
  (exists w : Z, 0.01%Q = (w # 100)%Q) /\
  (Qabs (0.01 - exact_hours bob_frame "Bob" 19724) <= 1 # 200)%Q.
Proof.
have H: WH.mk "Bob" 19724 28800 28835 0.01%Q \in work_hours bob_frame by vm_compute.
split; first exact: H.
exact: (work_hours_rounded H).
Defined.

(* --------------------------------------------------------------------- *)
(* Tables with one row per key                                           *)
(* --------------------------------------------------------------------- *)

Lemma filter_map_key (K : eqType) (A : Type) (f : K -> A) (key : A -> K)
    (l : seq K) (k : K) :
  (forall x, key (f x) = x) -> uniq l -> k \in l ->
  [seq a <- [seq f x | x <- l] | key a == k] = [:: f k].
Proof.
move=> H Ul kl; rewrite filter_map.
rewrite (@eq_filter _ _ (pred1 k)); first by move=> x /=; rewrite H.
by rewrite filter_pred1_uniq.
Qed.

(* The frames of the detailed-schedule loop are the sorted groups too. *)
Lemma detail_frame_group (df : DataFrame) (name : string) (date : Z) (status : string) :
  [seq r <- sort_values_DateTime [seq r <- employee_data df name | Date r == date]
  | Status r == status]
  = sort_values_DateTime (group df name date status).
Proof.
rewrite /sort_values_DateTime /employee_data.
rewrite (filter_sort by_DateTime_total by_DateTime_trans).
rewrite -!filter_predI; congr sort; apply: eq_filter => r /=.
by case: (Name r == name); case: (Date r == date); case: (Status r == status).
Qed.

Lemma work_duration_NA (ons offs : DataFrame) :
  nilp ons || nilp offs ->
  work_duration (sort_values_DateTime ons) (sort_values_DateTime offs) = NA.
Proof.
rewrite /work_duration.
case Eon: (sort_values_DateTime ons) => [|on0 ons'] //.
case Eoff: (sort_values_DateTime offs) => [|off0 offs'] //.
have: ~~ nilp ons by rewrite /nilp -(size_sort by_DateTime) -/(sort_values_DateTime _) Eon.
have: ~~ nilp offs by rewrite /nilp -(size_sort by_DateTime) -/(sort_values_DateTime _) Eoff.
by move=> /negbTE -> /negbTE ->.
Qed.

Lemma present_in_group (df : DataFrame) (name : string) (date : Z) (status : string) :
  present df name date status ->
  exists r, [/\ r \in df, Name r = name, Date r = date & Status r = status].
Proof.
rewrite /present /nilp size_eq0 -has_filter.
by case/hasP=> r rin /and3P [/eqP En /eqP Ed /eqP Es]; exists r.
Qed.

(** C3: when exactly one of the two statuses occurs in a (name, date)
    group, work_hours has no row for it; nothing fails; the daily summary
    has one row for the date, which counts the group's events and
    employee; the date counts among the employee's days; and the
    dashboard's detailed schedule has one row for the date, whose work
    duration reads N/A. *)
Theorem one_sided_group (df : DataFrame) (name : string) (date : Z) :
  present df name date DutyOn (+) present df name date DutyOff ->
  [/\ [seq s <- work_hours df | (WH.Name s == name) && (WH.Date s == date)] = [::],
      exists2 d, [seq x <- daily_summary df | Daily.Date x == date] = [:: d] &
        [/\ (size (group df name date DutyOn) <= Daily.Total_DutyOn d)%N,
            (size (group df name date DutyOff) <= Daily.Total_DutyOff d)%N,
            (0 < Daily.Total_DutyOn d + Daily.Total_DutyOff d)%N
          & (0 < Daily.Unique_Employees d)%N],
      date \in unique [seq Date r | r <- employee_data df name]
    & exists2 x,
        [seq x <- schedule_data name (employee_data df name) | Detail.Date x == date]
        = [:: x]
        & Detail.Work_Duration x = NA /\ (0 < Detail.Total_Records x)%N].
Proof.
move=> X.
have [st [Pst Hst]] : exists st, present df name date st /\
    ((st == DutyOn) || (st == DutyOff)).
  case Pon: (present df name date DutyOn); first by exists DutyOn.
  by move: X; rewrite Pon /= => Poff; exists DutyOff.
have NC: complete df name date = false.
  by rewrite /complete; move: X; case: (present _ _ _ DutyOn) => //= /negbTE.
have [r [rin En Ed Es]] := present_in_group Pst.
have din: date \in sorted_int (unique [seq Date r | r <- df]).
  by rewrite /sorted_int mem_sort mem_unique -Ed; exact: map_f.
have rE: r \in employee_data df name by rewrite mem_filter En eqxx.
have dE: date \in unique [seq Date r | r <- employee_data df name].
  by rewrite mem_unique -Ed; exact: map_f.
split=> //.
- by rewrite sessions_of_group NC.
- rewrite /daily_summary.
  eexists; first by apply: filter_map_key => //; exact: sort_unique_uniq.
  have sub St : (size (group df name date St)
                 <= size [seq r <- [seq r <- df | Date r == date] | Status r == St])%N.
    rewrite -filter_predI !size_filter; apply: sub_count => x /=.
    by case/and3P=> _ -> ->.
  have pos : (0 < size [seq r <- [seq r <- df | Date r == date] | Status r == st])%N.
    rewrite size_filter -has_count; apply/hasP; exists r; rewrite ?Es //.
    by rewrite mem_filter Ed eqxx.
  split=> /=; [exact: sub | exact: sub | | ].
  + by case/orP: Hst pos => /eqP -> pos; rewrite ?addn_gt0 pos ?orbT.
  + rewrite /nunique -has_predT; apply/hasP.
    exists name => //; rewrite mem_unique -En; apply: map_f.
    by rewrite mem_filter Ed eqxx.
- rewrite /schedule_data.
  eexists.
    apply: filter_map_key => //; first exact: sort_unique_uniq.
    by rewrite /sorted_int mem_sort.
  split=> /=.
  + rewrite !detail_frame_group; apply: work_duration_NA.
    by move: NC; rewrite /complete /present -negb_or => /negbFE.
  + rewrite /sort_values_DateTime size_sort size_filter -has_count.
    by apply/hasP; exists r => //; rewrite Ed.
Qed.

Lemma one_sided_group_witness :
  (present carl_off_only "Carl" 19724 DutyOn
   (+) present carl_off_only "Carl" 19724 DutyOff) /\
  [seq s <- work_hours carl_off_only
  | (WH.Name s == "Carl"%string) && (WH.Date s == 19724%Z)] = [::].
Proof.
split; first by vm_compute.
by case: (@one_sided_group carl_off_only "Carl"%string 19724%Z erefl).
Defined.

(* --------------------------------------------------------------------- *)
(* Counting by key                                                       *)
(* --------------------------------------------------------------------- *)

Lemma sumn_map_add (K : Type) (a b : K -> nat) (ks : seq K) :
  sumn [seq a k + b k | k <- ks] = sumn [seq a k | k <- ks] + sumn [seq b k | k <- ks].
Proof.
elim: ks => [|k ks IH] //=.
by rewrite IH addnACA.
Qed.

(* Summing, over the distinct keys, the matching rows of each key's group
   counts every matching row once. *)
Lemma sumn_count_by_key (K : eqType) (key : Row -> K) (p : pred Row)
    (ks : seq K) (df : DataFrame) :
  uniq ks -> {subset [seq key r | r <- df] <= ks} ->
  sumn [seq count p [seq r <- df | key r == k] | k <- ks] = count p df.
Proof.
move=> Uks; elim: df => [|r df IH] sub.
  by elim: ks {Uks sub} => [|k ks IH] //=.
have rin: key r \in ks by apply: sub; rewrite mem_head.
have sub': {subset [seq key r | r <- df] <= ks}.
  by move=> k kin; apply: sub; rewrite in_cons kin orbT.
have E k : count p [seq r0 <- r :: df | key r0 == k]
           = ((key r == k) && p r) + count p [seq r0 <- df | key r0 == k].
  by rewrite /=; case: (key r == k).
rewrite (eq_map E) sumn_map_add (IH sub') sumn_count /=; congr (_ + _).
case: (p r); last by rewrite (@eq_count _ _ pred0) ?count_pred0 // => k /=; rewrite andbF.
rewrite (@eq_count _ _ (pred1 (key r))); first by move=> k /=; rewrite andbT eq_sym.
by rewrite count_uniq_mem // rin.
Qed.

Lemma count_DutyOn_DutyOff (df : DataFrame) :
  count (fun r => Status r == DutyOn) df + count (fun r => Status r == DutyOff) df
  + count (predC recognized) df = size df.
Proof.
rewrite -(count_predC recognized df); congr (_ + _).
rewrite -count_predUI [X in _ + X](@eq_count _ _ pred0) ?count_pred0 ?addn0 //.
by move=> r /=; case: eqP => // ->.
Qed.

Lemma map_fillna0_groupby (K : eqType) (le : rel K) (key : Row -> K)
    (df : DataFrame) (k : K) :
  map_fillna0 (groupby_size le key df) k = size [seq r <- df | key r == k].
Proof.
rewrite /map_fillna0 /groupby_size.
case kin: (k \in sort le (unique [seq key r | r <- df])).
  rewrite (@filter_map_key _ _ _ (fun kv => kv.1) _ k) //.
  by rewrite sort_uniq unique_uniq.
have F: {in sort le (unique [seq key r | r <- df]),
          preim (fun k0 => (k0, size [seq r <- df | key r == k0]))
                (fun kv => kv.1 == k) =1 pred0}.
  by move=> x xin /=; apply/negbTE/negP => /eqP E; move: xin; rewrite E kin.
have C: {in df, (fun r => key r == k) =1 pred0}.
  move=> r rin /=; apply/negbTE/negP => /eqP E.
  by move: kin; rewrite mem_sort mem_unique -E map_f.
by rewrite filter_map (eq_in_filter F) filter_pred0 size_filter (eq_in_count C) count_pred0.
Qed.

Lemma dates_cover (df : DataFrame) :
  {subset [seq Date r | r <- df] <= sorted_int (unique [seq Date r | r <- df])}.
Proof. by move=> d din; rewrite /sorted_int mem_sort mem_unique. Qed.

(* Per-date counts of one status add up to the rows of that status. *)
Lemma daily_counts_total (df : DataFrame) (status : string) :
  sumn [seq size [seq r <- [seq r <- df | Date r == date] | Status r == status]
       | date <- sorted_int (unique [seq Date r | r <- df])]
  = count (fun r => Status r == status) df.
Proof.
rewrite -(sumn_count_by_key (fun r => Status r == status)
            (sort_unique_uniq int_le _) (@dates_cover df)).
by congr sumn; apply: eq_map => date; rewrite size_filter.
Qed.

Lemma daily_tab_counts_total (df : DataFrame) (status : string) :
  sumn [seq map_fillna0 (groupby_size int_le Date [seq r <- df | Status r == status]) date
       | date <- sorted_int (unique [seq Date r | r <- df])]
  = count (fun r => Status r == status) df.
Proof.
rewrite -daily_counts_total; congr sumn; apply: eq_map => date.
rewrite map_fillna0_groupby -!filter_predI; congr size.
by apply: eq_filter => r /=; rewrite andbC.
Qed.

(** C4, counterexample: one loaded row of status Break is counted by
    neither per-status column of the daily summary: the counts add up to
    0, the input has 1 row. *)
Lemma status_counts_miss_other_status :
  let daily := daily_summary bob_break_frame in
  read_duty_csv iso_to_datetime bob_break = Ok bob_break_frame /\
  sumn [seq Daily.Total_DutyOn d | d <- daily]
  + sumn [seq Daily.Total_DutyOff d | d <- daily] = 0 /\
  size bob_break_frame = 1.
Proof. by do !split; vm_compute. Qed.

(** C4, amended: over all dates, the DutyOn counts plus the DutyOff
    counts plus the number of rows whose status is neither equal the total
    number of input rows; this holds for the daily summary file and for
    the dashboard's Daily Summary tab. *)
Theorem status_counts_sum (df : DataFrame) :
  let daily := daily_summary df in
  let tab := daily_summary_tab df in
  sumn [seq Daily.Total_DutyOn d | d <- daily]
  + sumn [seq Daily.Total_DutyOff d | d <- daily]
  + count (predC recognized) df = size df
  /\
  sumn [seq DailyTab.Duty_On_Count d | d <- tab]
  + sumn [seq DailyTab.Duty_Off_Count d | d <- tab]
  + count (predC recognized) df = size df.
Proof.
rewrite /= /daily_summary /daily_summary_tab -!map_comp.
have <- := count_DutyOn_DutyOff df.
split; first by rewrite !daily_counts_total.
by rewrite !daily_tab_counts_total.
Qed.

(* --------------------------------------------------------------------- *)
(* Loading                                                               *)
(* --------------------------------------------------------------------- *)

Section LoaderFacts.
Variable to_datetime : string -> option Z.

(* The conversion fails exactly when some timestamp cell holds text that
   is rejected; otherwise every line is kept, a missing timestamp as
   NaT. *)
Lemma convert_DateTime_spec (raws : seq RawRow) :
  convert_DateTime to_datetime raws
  = if has (unparseable to_datetime) raws then Raise ParseError
    else Ok [seq loaded_row to_datetime r | r <- raws].
Proof.
rewrite /convert_DateTime; elim: raws => [|r raws IH] //=.
rewrite /convert_row /unparseable /loaded_row /missing_timestamp /parseable.
rewrite /read_cell; case: (isna (raw_DateTime r)) => /=.
  by rewrite IH; case: (has _ raws).
case: (to_datetime (raw_DateTime r)) => [t|] //=.
by rewrite IH; case: (has _ raws).
Qed.

(* The loaded rows form a DataFrame exactly when every line has all its
   cells, Name and Status as text. *)
Lemma typed_rows_spec (raws : seq RawRow) :
  ~~ has (unparseable to_datetime) raws ->
  typed_rows [seq loaded_row to_datetime r | r <- raws]
  = if all plain_row raws then Some [seq frame_row to_datetime r | r <- raws]
    else None.
Proof.
elim: raws => [|r raws IH] //=; rewrite negb_or => /andP [U /IH ->].
move: U; rewrite /typed_row /loaded_row /plain_row /unparseable /frame_row /=.
rewrite /missing_timestamp /parseable /read_cell.
have T cell : text_cell cell -> isna cell = false.
  by rewrite /text_cell => /andP [/negbTE].
case Tn: (text_cell (raw_Name r)); last first.
  by case: (isna (raw_Name r)) => //=; case: (isna (raw_Status r)) => //=;
     case: (isna (raw_DateTime r)) => //=; case: (to_datetime _) => //=; rewrite Tn.
case Ts: (text_cell (raw_Status r)); last first.
  by rewrite (T _ Tn) /=; case: (isna (raw_Status r)) => //=;
     case: (isna (raw_DateTime r)) => //=; case: (to_datetime _) => //=;
     rewrite Tn Ts.
rewrite (T _ Tn) (T _ Ts) /=; case: (isna (raw_DateTime r)) => //=.
case: (to_datetime (raw_DateTime r)) => [t|] //= _; rewrite Tn Ts /=.
by case: (all plain_row raws).
Qed.

Lemma read_duty_csv_spec (csv : seq RawRow) :
  read_duty_csv to_datetime csv
  = if has (unparseable to_datetime) csv then Raise ParseError
    else if all plain_row csv then Ok [seq frame_row to_datetime r | r <- csv]
    else Untyped [seq loaded_row to_datetime r | r <- csv].
Proof.
rewrite /read_duty_csv convert_DateTime_spec.
case U: (has _ csv) => //=.
by rewrite /typed typed_rows_spec ?U //; case: (all plain_row csv).
Qed.

Lemma read_sheets_spec (glob : seq File) :
  read_sheets to_datetime glob
  = if nilp glob then Raise FileNotFoundError
    else read_duty_csv to_datetime (sheet_rows glob).
Proof.
by rewrite /read_sheets /sheet_rows /nilp size_sort.
Qed.

Lemma dashboard_load_data_spec (csv : seq RawRow) :
  dashboard_load_data to_datetime (Some csv)
  = catch_all (read_duty_csv to_datetime csv).
Proof. by []. Qed.

(* A frame that loaded has a row for every line, with the cells of the
   line: no cell was missing. *)
Lemma read_duty_csv_Ok (csv : seq RawRow) (df : DataFrame) :
  read_duty_csv to_datetime csv = Ok df ->
  [/\ df = [seq frame_row to_datetime r | r <- csv],
      all plain_row csv
    & all (parseable to_datetime) csv].
Proof.
rewrite read_duty_csv_spec; case U: (has _ csv) => //.
case P: (all plain_row csv) => // -[<-]; split=> //.
apply/allP => r rin; move/negbT: U; rewrite -all_predC => /allP /(_ r rin) /=.
rewrite /unparseable negb_and negbK; case/orP; last by rewrite negbK.
by move/allP: P => /(_ r rin) /and3P [_ _ /negbTE ->].
Qed.

End LoaderFacts.

(** C5, counterexample: a row whose status is Break, with a well-formed
    timestamp, is loaded; nothing fails, in the analyzer and in
    load_data alike. *)
Lemma unknown_status_is_loaded :
  read_duty_csv iso_to_datetime bob_break = Ok bob_break_frame /\
  load_data iso_to_datetime
    [:: ("Untitled spreadsheet - Sheet3.csv"%string, bob_break)]
  = (Ok (Some bob_break_frame), [::]) /\
  all (predC recognized) bob_break_frame.
Proof. by do !split; vm_compute. Qed.

(** C5, amended: loading fails with a parse error as soon as one
    timestamp cell holds text that cannot be parsed (the analyzer lets
    the exception reach its caller, load_data reports it and returns
    None).  A timestamp cell that is missing (empty, or an NA marker) is
    no error: when no cell is rejected the file loads, in the analyzer
    and in load_data, with a row for every line, those lines having NaT
    for a timestamp.  The status column is not validated: when every line
    has its cells, every row is loaded with the status text it has,
    whatever it is. *)
Theorem loader_checks_timestamps_only (to_datetime : string -> option Z)
    (csv : seq RawRow) (glob : seq File) :
  let cells (frame : seq Loaded) :=
    [seq (loaded_ID c, loaded_Name c, loaded_Status c, loaded_DateTime c)
    | c <- frame] in
  let read (lines : seq RawRow) :=
    [seq (raw_ID r, read_cell (raw_Name r), read_cell (raw_Status r),
          if missing_timestamp r then None else to_datetime (raw_DateTime r))
    | r <- lines] in
  [/\ has (unparseable to_datetime) csv ->
        read_duty_csv to_datetime csv = Raise ParseError,
      has (unparseable to_datetime) (sheet_rows glob) ->
        load_data to_datetime glob = (Ok None, [:: ParseError]),
      ~~ has (unparseable to_datetime) csv -> has missing_timestamp csv ->
        exists2 frame : seq Loaded,
          read_duty_csv to_datetime csv = Untyped frame & cells frame = read csv,
      ~~ has (unparseable to_datetime) (sheet_rows glob) ->
      has missing_timestamp (sheet_rows glob) ->
        exists2 frame : seq Loaded,
          load_data to_datetime glob = (Untyped frame, [::])
          & cells frame = read (sheet_rows glob)
    & ~~ has (unparseable to_datetime) csv -> all plain_row csv ->
        exists2 df : DataFrame,
          read_duty_csv to_datetime csv = Ok df
          & [seq (ID r, Name r, Status r, Some (DateTime r)) | r <- df]
            = [seq (raw_ID r, raw_Name r, raw_Status r,
                    to_datetime (raw_DateTime r))
              | r <- csv]].
Proof.
move=> cells read.
have missing (lines : seq RawRow) :
    ~~ has (unparseable to_datetime) lines -> has missing_timestamp lines ->
    read_duty_csv to_datetime lines
    = Untyped [seq loaded_row to_datetime r | r <- lines].
  move=> /negbTE U M; rewrite read_duty_csv_spec U.
  have /negbTE -> // : ~~ all plain_row lines.
  rewrite -has_predC; apply: sub_has M => r /=.
  by rewrite /plain_row => ->; rewrite !andbF.
split.
- by rewrite read_duty_csv_spec => ->.
- rewrite /load_data read_sheets_spec read_duty_csv_spec.
  by case: glob => [|f glob]; [rewrite /sheet_rows | move=> ->].
- move=> U M; exists [seq loaded_row to_datetime r | r <- csv].
    exact: missing.
  by rewrite /cells -map_comp.
- move=> U M; exists [seq loaded_row to_datetime r | r <- sheet_rows glob].
    rewrite /load_data read_sheets_spec missing //.
    by case: glob M {U} => [|f glob] //; rewrite /sheet_rows.
  by rewrite /cells -map_comp.
- move=> /negbTE U P; exists [seq frame_row to_datetime r | r <- csv].
    by rewrite read_duty_csv_spec U P.
  rewrite -map_comp; apply/eq_in_map => r rin /=.
  have: ~~ unparseable to_datetime r.
    by move/negbT: U; rewrite -all_predC => /allP /(_ r rin).
  move/allP: P => /(_ r rin) /and3P [_ _]; rewrite /unparseable /parseable => -> /=.
  by rewrite negbK; case: (to_datetime _).
Qed.

Lemma loader_checks_timestamps_only_witness :
  read_duty_csv iso_to_datetime bad_timestamp = Raise ParseError /\
  exists2 frame : seq Loaded,
    read_duty_csv iso_to_datetime no_timestamp = Untyped frame
    & [seq loaded_DateTime c | c <- frame] = [:: Some 1704096000%Z; None].
Proof.
have [raises _ _ _ _] :=
  loader_checks_timestamps_only iso_to_datetime bad_timestamp [::].
have [_ _ nat _ _] :=
  loader_checks_timestamps_only iso_to_datetime no_timestamp [::].
split; first exact: raises.
have [frame E cells] := nat isT isT.
exists frame; first exact: E.
have -> : [seq loaded_DateTime c | c <- frame]
        = [seq x.2 | x <- [seq (loaded_ID c, loaded_Name c, loaded_Status c,
                                loaded_DateTime c) | c <- frame]].
  by rewrite -map_comp.
by rewrite cells.
Defined.

(** C6, counterexample: with no matching file load_data does not let
    FileNotFoundError reach its caller: the call returns, with the value
    None, where create_html_dashboard raises. *)
Lemma load_data_returns_None :
  load_data iso_to_datetime [::] = (Ok None, [:: FileNotFoundError]) /\
  dashboard_load_data iso_to_datetime None = (Ok None, [:: FileNotFoundError]) /\
  create_html_dashboard_load iso_to_datetime [::] = Raise FileNotFoundError.
Proof. by []. Qed.

(** C6, amended: when the pattern matches no file, create_html_dashboard
    raises FileNotFoundError to its caller before any frame exists;
    load_data (employee_lookup.py) raises the same error inside its try
    block, reports it through st.error and returns None; dashboard.py's
    load_data does the same when its one file is missing.  No frame is
    produced in any of them; and whenever load_data reports an error, of
    any kind, it returns None. *)
Theorem missing_input_not_found (to_datetime : string -> option Z) :
  [/\ create_html_dashboard_load to_datetime [::] = Raise FileNotFoundError,
      load_data to_datetime [::] = (Ok None, [:: FileNotFoundError]),
      dashboard_load_data to_datetime None = (Ok None, [:: FileNotFoundError]),
      forall glob : seq File,
        (create_html_dashboard_load to_datetime glob = Raise FileNotFoundError)
        <-> glob = [::]
    & forall (glob : seq File) (csv : option (seq RawRow)),
        (~~ nilp (load_data to_datetime glob).2 ->
           (load_data to_datetime glob).1 = Ok None) /\
        (~~ nilp (dashboard_load_data to_datetime csv).2 ->
           (dashboard_load_data to_datetime csv).1 = Ok None)].
Proof.
split=> // [glob|glob csv].
- rewrite /create_html_dashboard_load read_sheets_spec read_duty_csv_spec.
  case: glob => [|f glob] //=; split=> //.
  by case: (has _ _) => //; case: (all _ _).
- rewrite /load_data /dashboard_load_data.
  split; first by case: (read_sheets _ _).
  case: csv => [csv|] //=; rewrite -/(read_duty_csv to_datetime csv).
  by case: (read_duty_csv _ _).
Qed.

(* --------------------------------------------------------------------- *)
(* Zero rows                                                             *)
(* --------------------------------------------------------------------- *)

(* The tables built from a frame without rows are empty, the counts are
   zero, and employee_work_hours.csv is not written. *)
Lemma tables_of_no_rows :
  [/\ create_csv_reports [::] = mkReports [::] [::] [::] None,
      daily_summary_tab [::] = [::],
      employee_summary_tab [::] = [::]
    & schedule_data "Alice" [::] = [::]].
Proof. by split. Qed.

(** C7: the Key Metrics row of the dashboard (dashboard.py 133-156) does
    not tolerate a frame without rows: its "Date Range (Days)" metric
    takes max() - min() of an empty Date column and reads `.days` of the
    result, which raises AttributeError.  A frame with one DutyOn row,
    filtered by status DutyOff in the sidebar, is such a frame. *)
Theorem key_metrics_of_no_rows :
  let filtered_df :=
    apply_filters (only_status alice_on_only DutyOff) alice_on_only in
  filtered_df = [::] /\ key_metrics filtered_df = Raise AttributeError.
Proof. by split; vm_compute. Qed.

(* --------------------------------------------------------------------- *)
(* Durations that are not positive                                       *)
(* --------------------------------------------------------------------- *)

Lemma round_half_even_nonpos (x : Q) :
  (x <= 0)%Q -> (round_half_even x <= 0)%Z.
Proof.
case: x => n d; rewrite /round_half_even /Qle; cbn [Qnum Qden] => H.
have dpos: (0 < Z.pos d)%Z by [].
have E := Z.div_mod n (Z.pos d) ltac:(lia).
have [r0 rd] := Z.mod_pos_bound n (Z.pos d) dpos.
move: E r0 rd; set f := (n / Z.pos d)%Z; set r := (n mod Z.pos d)%Z => E r0 rd.
have n0 : (n <= 0)%Z by lia.
case: (Z.compare_spec (2 * r) (Z.pos d)) => C; first case: (Z.even f); nia.
Qed.

Lemma round2_nonpos (x : Q) : (x <= 0)%Q -> (round2 x <= 0)%Q.
Proof.
move=> H; have: (round_half_even (x * 100) <= 0)%Z.
  apply: round_half_even_nonpos.
  by move: H; case: x => n d; rewrite /Qle /Qmult; cbn [Qnum Qden]; lia.
by rewrite /round2 /Qle; cbn [Qnum Qden]; lia.
Qed.

(** C8: Carl's DutyOff at 08:00 and DutyOn at 17:00 of the same day form
    a group with both statuses whose latest DutyOff precedes its earliest
    DutyOn; a row is emitted for it, with Work_Hours -9.00.  No group with
    both statuses is ever rejected for the order of its timestamps: when
    the latest DutyOff precedes the earliest DutyOn the one row is still
    emitted, and its Work_Hours is not positive. *)
Theorem negative_duration_emitted :
  [/\ present carl_frame "Carl" 19724 DutyOn,
      present carl_frame "Carl" 19724 DutyOff,
      (latest (timestamps (group carl_frame "Carl" 19724 DutyOff))
       < earliest (timestamps (group carl_frame "Carl" 19724 DutyOn)))%Z,
      work_hours_file (analyze_duty_schedule iso_to_datetime carl_backwards)
      = Some [:: WH.mk "Carl" (days_from_civil 2024 1 2)
                       (17 * 3600)%Z (8 * 3600)%Z (-9.00)%Q]
    & (-9.00 < 0)%Q]
  /\
  forall (df : DataFrame) (name : string) (date : Z),
    complete df name date ->
    (latest (timestamps (group df name date DutyOff))
     < earliest (timestamps (group df name date DutyOn)))%Z ->
    exists2 s,
      [seq s <- work_hours df | (WH.Name s == name) && (WH.Date s == date)] = [:: s]
      & (WH.Work_Hours s <= 0)%Q.
Proof.
split; first by split; vm_compute.
move=> df name date C lt; exists (session df name date).
  by rewrite sessions_of_group C.
rewrite /session /=; apply: round2_nonpos.
rewrite /exact_hours /Qle /Qdiv /Qmult /Qinv /inject_Z; cbn [Qnum Qden]; lia.
Qed.

Lemma negative_duration_emitted_witness :
  complete carl_frame "Carl" 19724 /\
  exists2 s,
    [seq s <- work_hours carl_frame
    | (WH.Name s == "Carl"%string) && (WH.Date s == 19724%Z)] = [:: s]
    & (WH.Work_Hours s <= 0)%Q.
Proof.
split; first by vm_compute.
apply: (proj2 negative_duration_emitted carl_frame "Carl"%string 19724%Z).
- by vm_compute.
- by vm_compute.
Defined.

(* --------------------------------------------------------------------- *)
(* Reordering the rows                                                   *)
(* --------------------------------------------------------------------- *)

Lemma earliest_perm (ts1 ts2 : seq Z) :
  perm_eq ts1 ts2 -> earliest ts1 = earliest ts2.
Proof.
move=> P; have M := perm_mem P; have S := perm_size P.
case E1: (ts1 == [::]).
  by move: S; rewrite (eqP E1) /=; case: ts2 {P M}.
have N1: ts1 != [::] by rewrite E1.
have N2: ts2 != [::] by rewrite -size_eq0 -S size_eq0.
have [i1 l1] := earliestP N1; have [i2 l2] := earliestP N2.
have := l1 _ (etrans (M _) i2); have := l2 _ (etrans (esym (M _)) i1); lia.
Qed.

Lemma latest_perm (ts1 ts2 : seq Z) :
  perm_eq ts1 ts2 -> latest ts1 = latest ts2.
Proof.
move=> P; have M := perm_mem P; have S := perm_size P.
case E1: (ts1 == [::]).
  by move: S; rewrite (eqP E1) /=; case: ts2 {P M}.
have N1: ts1 != [::] by rewrite E1.
have N2: ts2 != [::] by rewrite -size_eq0 -S size_eq0.
have [i1 l1] := latestP N1; have [i2 l2] := latestP N2.
have := l1 _ (etrans (M _) i2); have := l2 _ (etrans (esym (M _)) i1); lia.
Qed.

Section Reorder.
Variables df1 df2 : DataFrame.
Hypothesis df12 : perm_eq df1 df2.

Lemma group_perm (name : string) (date : Z) (status : string) :
  perm_eq (group df1 name date status) (group df2 name date status).
Proof. by rewrite /group perm_filter. Qed.

Lemma present_perm (name : string) (date : Z) (status : string) :
  present df1 name date status = present df2 name date status.
Proof. by rewrite /present /nilp (perm_size (group_perm name date status)). Qed.

Lemma session_perm (name : string) (date : Z) :
  session df1 name date = session df2 name date.
Proof.
rewrite /session /exact_hours /timestamps.
rewrite (earliest_perm (perm_map DateTime (group_perm name date DutyOn))).
by rewrite (latest_perm (perm_map DateTime (group_perm name date DutyOff))).
Qed.

Lemma names_perm : names df1 = names df2.
Proof.
apply: (sort_unique_eq str_le_total str_le_trans str_le_antisym).
by apply: perm_mem; apply: perm_map.
Qed.

Lemma dates_of_perm (name : string) : dates_of df1 name = dates_of df2 name.
Proof.
apply: (sort_unique_eq int_le_total int_le_trans int_le_antisym).
by apply: perm_mem; apply: perm_map; rewrite perm_filter.
Qed.

Lemma reconstruct_sessions_perm :
  reconstruct_sessions df1 = reconstruct_sessions df2.
Proof.
rewrite /reconstruct_sessions names_perm.
apply: eq_flatten_map => name _; rewrite dates_of_perm.
apply: eq_flatten_map => date _.
by rewrite /complete !present_perm session_perm.
Qed.

End Reorder.

(** C10: the rows written to the work-hours file do not depend on the
    order of the input rows: two frames that are permutations of each
    other give the same list of sessions (name, date, duty-on time,
    duty-off time, hours), from create_csv_reports directly and through
    the sort by Name, Date and DateTime that analyze_duty_schedule applies
    first; that list is the reconstruction from the earliest DutyOn and
    the latest DutyOff timestamp of each (name, date) group. *)
Theorem sessions_permutation_invariant (df1 df2 : DataFrame) :
  perm_eq df1 df2 ->
  [/\ work_hours df1 = work_hours df2,
      employee_work_hours_csv (create_csv_reports (sort_values_Name_Date_DateTime df1))
      = employee_work_hours_csv (create_csv_reports (sort_values_Name_Date_DateTime df2))
    & work_hours df1 = reconstruct_sessions df1].
Proof.
move=> P; split; first by rewrite !work_hoursE; exact: reconstruct_sessions_perm.
  2: exact: work_hoursE.
rewrite /create_csv_reports /= !work_hoursE.
rewrite (@reconstruct_sessions_perm (sort_values_Name_Date_DateTime df1)
                                    (sort_values_Name_Date_DateTime df2)) //.
by rewrite /sort_values_Name_Date_DateTime perm_sort perm_sym perm_sort perm_sym.
Qed.

Lemma sessions_permutation_invariant_witness :
  perm_eq alice_frame (rev alice_frame) /\
  work_hours alice_frame = work_hours (rev alice_frame).
Proof.
have P: perm_eq alice_frame (rev alice_frame) by vm_compute.
split; first exact: P.
by case: (sessions_permutation_invariant P).
Defined.

(* --------------------------------------------------------------------- *)
(* Rows of another status                                                *)
(* --------------------------------------------------------------------- *)

(* Two loops over sorted distinct keys append the same rows when they
   agree on the keys that append something and each such key is in both
   key lists. *)
Lemma flatten_sorted_support (T : eqType) (le : rel T) (A : Type)
    (g1 g2 : T -> seq A) (s1 s2 : seq T) (P : pred T) :
  total le -> transitive le -> antisymmetric le ->
  (forall x, ~~ P x -> g1 x = [::]) ->
  (forall x, ~~ P x -> g2 x = [::]) ->
  (forall x, P x -> g1 x = g2 x) ->
  (forall x, P x -> (x \in s1) = (x \in s2)) ->
  flatten [seq g1 x | x <- sort le (unique s1)]
  = flatten [seq g2 x | x <- sort le (unique s2)].
Proof.
move=> le_total le_trans le_antisym N1 N2 E M.
have F1: forall x, x \in sort le (unique s1) -> ~~ P x -> g1 x = [::].
  by move=> x _; exact: N1.
have F2: forall x, x \in sort le (unique s2) -> ~~ P x -> g2 x = [::].
  by move=> x _; exact: N2.
rewrite (flatten_map_filter F1) (flatten_map_filter F2).
have -> : [seq x <- sort le (unique s1) | P x] = [seq x <- sort le (unique s2) | P x].
  apply: filter_sort_unique_eq => // x.
  by rewrite !mem_filter; case Px: (P x) => //=; exact: M.
by apply: eq_flatten_map => x; rewrite mem_filter => /andP [/E].
Qed.

Section OtherStatus.
Variables (df1 df2 : DataFrame) (r : Row).
Hypothesis other : ~~ recognized r.

Let df : DataFrame := df1 ++ r :: df2.
Let rest : DataFrame := df1 ++ df2.

Lemma other_status (status : string) :
  (status == DutyOn) || (status == DutyOff) -> (Status r == status) = false.
Proof.
move: other; rewrite /recognized negb_or => /andP [/negbTE On /negbTE Off].
by case/orP=> /eqP ->.
Qed.

Lemma filter_other (p : pred Row) (status : string) :
  (status == DutyOn) || (status == DutyOff) ->
  [seq x <- df | p x && (Status x == status)]
  = [seq x <- rest | p x && (Status x == status)].
Proof. by move=> H; rewrite /df /rest !filter_cat /= (other_status H) andbF. Qed.

Lemma group_other (name : string) (date : Z) (status : string) :
  (status == DutyOn) || (status == DutyOff) ->
  group df name date status = group rest name date status.
Proof.
move=> H; rewrite /group.
have A (f : DataFrame) :
    [seq x <- f | [&& Name x == name, Date x == date & Status x == status]]
    = [seq x <- f | ((Name x == name) && (Date x == date)) && (Status x == status)].
  by apply: eq_filter => x; rewrite andbA.
by rewrite !A (filter_other _ H).
Qed.

Lemma complete_other (name : string) (date : Z) :
  complete df name date = complete rest name date.
Proof. by rewrite /complete /present !group_other. Qed.

Lemma session_other (name : string) (date : Z) :
  session df name date = session rest name date.
Proof. by rewrite /session /exact_hours !group_other. Qed.

Lemma rest_sub : {subset rest <= df}.
Proof.
move=> x; rewrite /rest /df !mem_cat in_cons => /orP [->|->] //.
by rewrite !orbT.
Qed.

Lemma reconstruct_sessions_other :
  reconstruct_sessions df = reconstruct_sessions rest.
Proof.
rewrite /reconstruct_sessions /names /dates_of.
pose P n := has (fun x => (Name x == n) && (Status x == DutyOn)) rest.
have PP n d : present rest n d DutyOn -> P n.
  case/present_in_group=> x [xin En _ Es].
  by apply/hasP; exists x => //; rewrite En Es !eqxx.
apply: (flatten_sorted_support (P := P) str_le_total str_le_trans str_le_antisym).
- move=> n nP; apply: flatten_map_nil => d _.
  rewrite complete_other; case C: (complete rest n d) => //.
  by case/andP: C => /PP Pn _; rewrite Pn in nP.
- move=> n nP; apply: flatten_map_nil => d _.
  case C: (complete rest n d) => //.
  by case/andP: C => /PP Pn _; rewrite Pn in nP.
- move=> n _.
  apply: (flatten_sorted_support (P := fun d => present rest n d DutyOn)
            int_le_total int_le_trans int_le_antisym).
  + move=> d /negbTE nP; rewrite complete_other /complete nP //.
  + by move=> d /negbTE nP; rewrite /complete nP.
  + by move=> d _; rewrite complete_other session_other.
  + move=> d /present_in_group [x [xin En Ed _]].
    have H (f : DataFrame) : x \in f -> d \in [seq Date x | x <- f & Name x == n].
      by move=> xf; rewrite -Ed; apply: map_f; rewrite mem_filter En eqxx.
    by rewrite (H _ xin) (H _ (rest_sub xin)).
- move=> n /hasP [x xin /andP [/eqP En _]].
  have H (f : DataFrame) : x \in f -> n \in [seq Name x | x <- f].
    by move=> xf; rewrite -En; apply: map_f.
  by rewrite (H _ xin) (H _ (rest_sub xin)).
Qed.

End OtherStatus.

Lemma key_metrics_ok (df : DataFrame) :
  df != [::] ->
  exists days,
    key_metrics df
    = Ok (mkKeyMetrics (size df) (nunique [seq Name r | r <- df])
            (size [seq r <- df | Status r == DutyOn])
            (size [seq r <- df | Status r == DutyOff]) days).
Proof.
case: df => [|r df] // _; rewrite /key_metrics /=.
by eexists.
Qed.

(* The rows of one status among those of an employee on a date, as the
   analyzer's listing selects them. *)
Lemma listing_records_other (df1 df2 : DataFrame) (r : Row)
    (name : string) (date : Z) (status : string) :
  ~~ recognized r -> (status == DutyOn) || (status == DutyOff) ->
  [seq x <- [seq x <- [seq x <- df1 ++ r :: df2 | Name x == name]
            | Date x == date] | Status x == status]
  = [seq x <- [seq x <- [seq x <- df1 ++ df2 | Name x == name]
              | Date x == date] | Status x == status].
Proof.
move=> other H; rewrite !filter_cat /=.
case: (Name r == name) => //=; case: (Date r == date) => //=.
by rewrite (other_status other H).
Qed.

Lemma person_listing_other (df1 df2 : DataFrame) (r : Row) (name : string) :
  ~~ recognized r ->
  [seq l <- person_listing (df1 ++ r :: df2) name | has_lines l]
  = [seq l <- person_listing (df1 ++ df2) name | has_lines l].
Proof.
move=> other; rewrite /person_listing !filter_map.
set F := fun date : Z => Listing.mk date _ _ _.
set G := fun date : Z => Listing.mk date _ _ _.
have FG date : F date = G date.
  by rewrite /F /G !(listing_records_other _ _ _ _ other) ?eqxx ?orbT.
have E : preim F has_lines =1 preim G has_lines by move=> date /=; rewrite FG.
rewrite (eq_filter E).
rewrite (eq_map FG); congr map.
apply: (filter_sort_unique_eq int_le_total int_le_trans int_le_antisym) => date.
rewrite !mem_filter /=; case P: (has_lines (G date)) => //=.
have [x xin /and3P [/eqP En /eqP Ed _]] :
    exists2 x, x \in df1 ++ df2
             & [&& Name x == name, Date x == date
                 & (Status x == DutyOn) || (Status x == DutyOff)].
  move: P; rewrite /has_lines /G /= /nilp !size_map !size_eq0 -!has_filter.
  case/orP=> /hasP [x]; rewrite !mem_filter => /and3P [Ed En xin] Es;
    by exists x => //; rewrite En Ed Es ?orbT.
have H (f : DataFrame) : x \in f -> date \in [seq Date x | x <- f & Name x == name].
  by move=> xf; rewrite -Ed; apply: map_f; rewrite mem_filter En eqxx.
by rewrite (H _ xin) (H _ (rest_sub _ xin)).
Qed.

(** C9: a row whose status is neither DutyOn nor DutyOff is loaded like
    any other and stays in the frame, at its place and with its status
    text, in the analyzer and in the dashboard's load_data.  In the frame
    the dashboard's "Total Records" counts it and "Unique Employees"
    counts its employee; but the "Duty On Records" and "Duty Off Records"
    metrics, the DutyOn and DutyOff counts of every row of the daily
    summary, the Duty ON and Duty OFF lines and the durations of the
    analyzer's listing, and the work-hours rows are what they are without
    that row. *)
Theorem other_status_rows :
  (forall (to_datetime : string -> option Z) (csv1 csv2 : seq RawRow)
          (raw_r : RawRow) (df : DataFrame),
     raw_Status raw_r != DutyOn -> raw_Status raw_r != DutyOff ->
     read_duty_csv to_datetime (csv1 ++ raw_r :: csv2) = Ok df ->
     exists df1 r df2,
       [/\ df = df1 ++ r :: df2,
           size df1 = size csv1 /\ size df2 = size csv2,
           (ID r, Name r, Status r) = (raw_ID raw_r, raw_Name raw_r, raw_Status raw_r),
           ~~ recognized r
         & dashboard_load_data to_datetime (Some (csv1 ++ raw_r :: csv2))
           = (Ok (Some df), [::])])
  /\
  (forall (df1 df2 : DataFrame) (r : Row),
     ~~ recognized r ->
     let df := df1 ++ r :: df2 in
     let rest := df1 ++ df2 in
     [/\ exists2 m, key_metrics df = Ok m &
           [/\ total_records m = (size rest).+1,
               unique_employees m = nunique [seq Name x | x <- df],
               duty_on_count m = count (fun x => Status x == DutyOn) rest
             & duty_off_count m = count (fun x => Status x == DutyOff) rest],
         Name r \in unique [seq Name x | x <- df],
         Date r \in [seq Daily.Date d | d <- daily_summary df]
         /\ all (fun d =>
                   (Daily.Total_DutyOn d
                    == count (fun x => (Date x == Daily.Date d)
                                       && (Status x == DutyOn)) rest)
                   && (Daily.Total_DutyOff d
                       == count (fun x => (Date x == Daily.Date d)
                                          && (Status x == DutyOff)) rest))
                (daily_summary df),
         forall name : string,
           [seq l <- person_listing df name | has_lines l]
           = [seq l <- person_listing rest name | has_lines l]
       & work_hours df = work_hours rest]).
Proof.
split.
- move=> to_datetime csv1 csv2 raw_r df On Off E.
  have [Edf _ _] := read_duty_csv_Ok E.
  rewrite dashboard_load_data_spec E Edf map_cat /=.
  exists [seq frame_row to_datetime x | x <- csv1], (frame_row to_datetime raw_r),
         [seq frame_row to_datetime x | x <- csv2].
  split=> //; first by rewrite !size_map.
  by rewrite /recognized /= negb_or On Off.
- move=> df1 df2 r other df rest.
  have cnt status : (status == DutyOn) || (status == DutyOff) ->
      size [seq x <- df | Status x == status] = count (fun x => Status x == status) rest.
    move=> H; rewrite size_filter /df /rest !count_cat /=.
    by rewrite (other_status other H).
  split.
  + have N: df != [::] by rewrite /df -size_eq0 size_cat /= addnS.
    have [days ->] := key_metrics_ok N; eexists; first by [].
    split=> /=; rewrite ?cnt ?eqxx ?orbT //.
    by rewrite /df /rest !size_cat /= addnS.
  + by rewrite mem_unique; apply: map_f; rewrite /df mem_cat mem_head orbT.
  + rewrite /daily_summary -map_comp; split.
      rewrite map_id_in // /sorted_int mem_sort mem_unique; apply: map_f.
      by rewrite /df mem_cat mem_head orbT.
    rewrite all_map; apply/allP => date _ /=.
    have C (f : DataFrame) status :
        size [seq x <- [seq x <- f | Date x == date] | Status x == status]
        = count (fun x => (Date x == date) && (Status x == status)) f.
      by rewrite -filter_predI size_filter; apply: eq_count => x /=; rewrite andbC.
    rewrite !C /df /rest !count_cat /= !(other_status other) ?eqxx ?orbT //.
    by rewrite !andbF !add0n !eqxx.
  + by move=> name; exact: person_listing_other.
  + by rewrite !work_hoursE; exact: reconstruct_sessions_other.
Qed.

Lemma other_status_rows_witness :
  let r := mkRow 4 "Bob" "Break" 1704196800 in
  [/\ read_duty_csv iso_to_datetime (alice_day ++ bob_break ++ bob_short)
      = Ok (alice_frame ++ r :: bob_frame),
      ~~ recognized r
    & work_hours (alice_frame ++ r :: bob_frame)
      = work_hours (alice_frame ++ bob_frame)].
Proof.
have H: ~~ recognized (mkRow 4 "Bob" "Break" 1704196800) by vm_compute.
split; [by vm_compute | exact: H |].
by case: (proj2 other_status_rows alice_frame bob_frame _ H).
Defined.

(* ===================================================================== *)
(* Further properties of the scripts                                     *)
(* ===================================================================== *)

(* --------------------------------------------------------------------- *)
(* The schedule files of create_csv_reports                              *)
(* --------------------------------------------------------------------- *)

(* Grouping a frame by the values of a key and sorting each group
   rearranges its rows. *)
Lemma perm_sorted_groups (K : eqType) (key : Row -> K) (ks : seq K)
    (df : DataFrame) :
  uniq ks -> {subset [seq key r | r <- df] <= ks} ->
  perm_eq (flatten [seq sort_values_DateTime [seq r <- df | key r == k] | k <- ks]) df.
Proof.
move=> U S; apply/permP => a.
rewrite count_flatten -map_comp -(sumn_count_by_key a U S).
by congr sumn; apply: eq_map => k /=; rewrite count_sort.
Qed.

Lemma names_cover (df : DataFrame) :
  {subset [seq Name r | r <- df] <= sorted_str (unique [seq Name r | r <- df])}.
Proof. by move=> n nin; rewrite /sorted_str mem_sort mem_unique. Qed.

Lemma flatten_map_map (K A B : Type) (f : A -> B) (g : K -> seq A) (ks : seq K) :
  flatten [seq [seq f a | a <- g k] | k <- ks]
  = [seq f a | a <- flatten [seq g k | k <- ks]].
Proof. by rewrite map_flatten -map_comp. Qed.

(** X1: duty_schedule_by_person.csv and duty_schedule_by_date.csv each
    hold every input row exactly once: both are rearrangements of the
    frame's rows (as schedule records). *)
Theorem schedules_keep_every_row (df : DataFrame) :
  perm_eq (person_schedule df) [seq schedule_record r | r <- df] /\
  perm_eq (date_schedule df) [seq schedule_record r | r <- df].
Proof.
rewrite /person_schedule /date_schedule /= !flatten_map_map; split.
- apply: perm_map; apply: perm_sorted_groups (@names_cover df).
  exact: sort_unique_uniq.
- apply: perm_map; apply: perm_sorted_groups (@dates_cover df).
  exact: sort_unique_uniq.
Qed.

(* Sorted distinct values are strictly ascending. *)
Lemma sort_unique_strict (T : eqType) (le : rel T) (s : seq T) :
  total le -> transitive le ->
  pairwise (fun x y => (x != y) && le x y) (sort le (unique s)).
Proof.
move=> le_total le_trans.
rewrite (pairwise_relI (fun x y => x != y) le) -uniq_pairwise sort_unique_uniq /=.
by rewrite -(sorted_pairwise le_trans) sort_sorted.
Qed.

(* Blocks appended in the order of their keys. *)
Lemma pairwise_flatten_map (K A : eqType) (R : rel A) (RK : rel K)
    (g : K -> seq A) (ks : seq K) :
  pairwise RK ks ->
  (forall k, k \in ks -> pairwise R (g k)) ->
  (forall k1 k2 a b, RK k1 k2 -> a \in g k1 -> b \in g k2 -> R a b) ->
  pairwise R (flatten [seq g k | k <- ks]).
Proof.
move=> + + HR; elim: ks => [|k ks IH] //= /andP [Hk Hks] Hin.
rewrite pairwise_cat; apply/and3P; split.
- apply/allrelP => a b ain /flattenP [ss /mapP [k' k'in ->] bin].
  by apply: (HR k k') => //; exact: (allP Hk).
- by apply: Hin; rewrite mem_head.
- by apply: IH => // k' k'in; apply: Hin; rewrite in_cons k'in orbT.
Qed.

Lemma sort_values_pairwise (frame : DataFrame) :
  pairwise by_DateTime (sort_values_DateTime frame).
Proof.
by rewrite -(sorted_pairwise by_DateTime_trans) (sort_sorted by_DateTime_total).
Qed.

Lemma mem_sorted_group (K : eqType) (key : Row -> K) (k : K) (df : DataFrame)
    (r : Row) :
  r \in sort_values_DateTime [seq r <- df | key r == k] -> key r = k.
Proof. by rewrite /sort_values_DateTime mem_sort mem_filter => /andP [/eqP]. Qed.

(** X2: duty_schedule_by_person.csv is ordered by employee name, and
    chronologically among the rows of one employee: of any two rows, the
    earlier one in the file has the smaller name, or the same name and a
    DateTime that is not later. *)
Theorem person_schedule_ordered (df : DataFrame) :
  pairwise by_person_order (person_schedule df).
Proof.
rewrite /person_schedule /=.
apply: (@pairwise_flatten_map _ _ _ (fun x y => (x != y) && str_le x y)).
- exact: sort_unique_strict str_le_total str_le_trans.
- move=> n _; rewrite pairwise_map.
  have A: all (fun r => Name r == n)
              (sort_values_DateTime [seq r <- df | Name r == n]).
    by apply/allP => r /mem_sorted_group ->.
  apply: (@sub_in_pairwise _ _ by_DateTime _ _ _ A (sort_values_pairwise _)).
  by move=> r1 r2 /eqP E1 /eqP E2 H; rewrite /by_person_order /= E1 E2 eqxx.
- move=> n1 n2 a b /andP [/negbTE ne le] /mapP [r1 /mem_sorted_group E1 ->].
  case/mapP=> r2 /mem_sorted_group E2 ->.
  by rewrite /by_person_order /= E1 E2 ne.
Qed.

Lemma date_lt_DateTime (r1 r2 : Row) :
  int_le (Date r1) (Date r2) -> Date r1 != Date r2 ->
  int_le (DateTime r1) (DateTime r2).
Proof.
rewrite /int_le /Date => /Z.leb_le H /eqP N; apply/Z.leb_le.
have [//|lt] := Z.le_gt_cases (DateTime r1) (DateTime r2).
have := Z.div_le_mono (DateTime r2) (DateTime r1) 86400 ltac:(lia) ltac:(lia).
lia.
Qed.

(** X3: duty_schedule_by_date.csv is in chronological order throughout:
    of any two rows, the earlier one in the file has a DateTime that is
    not later. *)
Theorem date_schedule_chronological (df : DataFrame) :
  pairwise chronological (date_schedule df).
Proof.
rewrite /date_schedule /=.
apply: (@pairwise_flatten_map _ _ _ (fun x y => (x != y) && int_le x y)).
- exact: sort_unique_strict int_le_total int_le_trans.
- by move=> d _; rewrite pairwise_map; exact: sort_values_pairwise.
- move=> d1 d2 a b /andP [ne le] /mapP [r1 /mem_sorted_group E1 ->].
  case/mapP=> r2 /mem_sorted_group E2 ->.
  by rewrite /chronological /=; apply: date_lt_DateTime; rewrite E1 E2.
Qed.

(* --------------------------------------------------------------------- *)
(* The daily summary and the work-hours file                             *)
(* --------------------------------------------------------------------- *)

Lemma size_unique (T : eqType) (s : seq T) : size (unique s) <= size s.
Proof. by rewrite /unique size_rev (leq_trans (size_undup _)) // size_rev. Qed.

Lemma strict_int_lt (x y : Z) : (x != y) && int_le x y -> (x <? y)%Z.
Proof. by case/andP=> /eqP N /Z.leb_le L; apply/Z.ltb_lt; lia. Qed.

(** X4: daily_duty_summary.csv has exactly one row per date that occurs
    in the input, the rows in strictly increasing date order; each row
    counts at least one employee and no more employees than the input has
    rows on that date. *)
Theorem daily_summary_rows (df : DataFrame) :
  [/\ pairwise (fun a b => (Daily.Date a <? Daily.Date b)%Z) (daily_summary df),
      forall date : Z,
        (date \in [seq Daily.Date d | d <- daily_summary df])
        = (date \in [seq Date r | r <- df])
    & all (fun d => (0 < Daily.Unique_Employees d)
                    && (Daily.Unique_Employees d
                        <= count (fun r => Date r == Daily.Date d) df))
          (daily_summary df)].
Proof.
rewrite /daily_summary; split.
- rewrite pairwise_map.
  apply: sub_pairwise (sort_unique_strict _ int_le_total int_le_trans).
  by move=> x y /=; exact: strict_int_lt.
- by move=> date; rewrite -map_comp map_id_in // /sorted_int mem_sort mem_unique.
- rewrite all_map; apply/allP => date; rewrite /sorted_int mem_sort mem_unique /=.
  case/mapP=> r rin ->; apply/andP; split.
  + rewrite /nunique -has_predT; apply/hasP; exists (Name r) => //.
    by rewrite mem_unique; apply: map_f; rewrite mem_filter eqxx.
  + by rewrite (leq_trans (size_unique _)) // size_map size_filter.
Qed.

Lemma mem_cell (df : DataFrame) (n : string) (d : Z) (s : WH.t) :
  s \in (if complete df n d then [:: session df n d] else [::]) ->
  [/\ complete df n d, s = session df n d, WH.Name s = n & WH.Date s = d].
Proof. by case C: (complete df n d) => //; rewrite inE => /eqP ->. Qed.

Lemma mem_person_sessions (df : DataFrame) (n : string) (s : WH.t) :
  s \in flatten [seq if complete df n d then [:: session df n d] else [::]
                | d <- dates_of df n] ->
  WH.Name s = n.
Proof. by case/flattenP=> c /mapP [d _ ->] /mem_cell []. Qed.

(** X5: employee_work_hours.csv is ordered by employee name and, for one
    employee, by strictly increasing date; in particular no two rows have
    the same name and date. *)
Theorem work_hours_ordered (df : DataFrame) :
  pairwise by_name_then_date (work_hours df) /\
  uniq [seq (WH.Name s, WH.Date s) | s <- work_hours df].
Proof.
have P: pairwise by_name_then_date (work_hours df).
  rewrite work_hoursE /reconstruct_sessions.
  apply: (@pairwise_flatten_map _ _ _ (fun x y => (x != y) && str_le x y)).
  - exact: sort_unique_strict str_le_total str_le_trans.
  - move=> n _.
    apply: (@pairwise_flatten_map _ _ _ (fun x y => (x != y) && int_le x y)).
    + exact: sort_unique_strict int_le_total int_le_trans.
    + by move=> d _; case: (complete df n d).
    + move=> d1 d2 a b /strict_int_lt lt /mem_cell [_ _ Na Da] /mem_cell [_ _ Nb Db].
      by rewrite /by_name_then_date Na Nb Da Db eqxx.
  - move=> n1 n2 a b /andP [/negbTE ne le] /mem_person_sessions Na.
    by move/mem_person_sessions=> Nb; rewrite /by_name_then_date Na Nb ne.
split=> //; rewrite uniq_pairwise pairwise_map.
apply: sub_pairwise P => a b; rewrite /by_name_then_date /= xpair_eqE.
case: (WH.Name a == WH.Name b) => //= /Z.ltb_lt lt.
by apply/eqP; lia.
Qed.

(* The timestamps of a (name, date) group lie within that day. *)
Lemma group_timestamp_day (df : DataFrame) (n : string) (d : Z) (st : string) (t : Z) :
  t \in timestamps (group df n d st) ->
  (d * 86400 <= t < d * 86400 + 86400)%Z.
Proof.
case/mapP=> r; rewrite mem_filter => /andP [/and3P [_ /eqP E _] _] ->.
move: E; rewrite /Date => <-.
have := Z.div_mod (DateTime r) 86400 ltac:(lia).
have := Z.mod_pos_bound (DateTime r) 86400 ltac:(lia).
lia.
Qed.

Lemma round_half_even_between (x : Q) (a b : Z) :
  (inject_Z a <= x)%Q -> (x <= inject_Z b)%Q ->
  (a <= round_half_even x <= b)%Z.
Proof.
case: x => n d; rewrite /round_half_even /Qle /inject_Z; cbn [Qnum Qden] => lo hi.
have dpos: (0 < Z.pos d)%Z by [].
have E := Z.div_mod n (Z.pos d) ltac:(lia).
have [r0 rd] := Z.mod_pos_bound n (Z.pos d) dpos.
move: E r0 rd; set f := (n / Z.pos d)%Z; set r := (n mod Z.pos d)%Z => E r0 rd.
have fa : (a <= f)%Z by nia.
have fb : (f <= b)%Z by nia.
have fb' : (r <> 0 -> f + 1 <= b)%Z by nia.
case: (Z.compare_spec (2 * r) (Z.pos d)) => C; first case: (Z.even f); lia.
Qed.

Lemma round2_between (x : Q) (a b : Z) :
  (inject_Z a <= x)%Q -> (x <= inject_Z b)%Q ->
  (inject_Z a <= round2 x)%Q /\ (round2 x <= inject_Z b)%Q.
Proof.
move=> lo hi.
have lo0: (inject_Z (a * 100) <= x * 100)%Q.
  by move: lo; case: x {hi} => n d; rewrite /Qle /Qmult /inject_Z; cbn [Qnum Qden]; lia.
have hi0: (x * 100 <= inject_Z (b * 100))%Q.
  by move: hi; case: x {lo lo0} => n d; rewrite /Qle /Qmult /inject_Z; cbn [Qnum Qden]; lia.
have := round_half_even_between lo0 hi0.
by rewrite /round2 /Qle /inject_Z; cbn [Qnum Qden]; lia.
Qed.

Lemma present_timestamps (df : DataFrame) (n : string) (d : Z) (st : string) :
  present df n d st -> timestamps (group df n d st) != [::].
Proof. by rewrite /present /nilp /timestamps -size_eq0 size_map. Qed.

(** X6: every row of employee_work_hours.csv has its Work_Hours between
    -24 and 24 and its two times within the day (0 <= time < 86400
    seconds): first DutyOn and last DutyOff are taken on one calendar
    date. *)
Theorem work_hours_within_a_day (df : DataFrame) (s : WH.t) :
  s \in work_hours df ->
  [/\ (inject_Z (-24) <= WH.Work_Hours s)%Q,
      (WH.Work_Hours s <= inject_Z 24)%Q,
      (0 <= WH.Duty_On_Time s < 86400)%Z
    & (0 <= WH.Duty_Off_Time s < 86400)%Z].
Proof.
case/work_hours_sound=> /andP [Pon Poff] ->; rewrite /session /=.
have [on_in _] := earliestP (present_timestamps Pon).
have [off_in _] := latestP (present_timestamps Poff).
have Don := group_timestamp_day on_in; have Doff := group_timestamp_day off_in.
have lo0: (inject_Z (-24) <= exact_hours df (WH.Name s) (WH.Date s))%Q.
  by rewrite /exact_hours /Qle /Qdiv /Qmult /Qinv /inject_Z; cbn [Qnum Qden]; lia.
have hi0: (exact_hours df (WH.Name s) (WH.Date s) <= inject_Z 24)%Q.
  by rewrite /exact_hours /Qle /Qdiv /Qmult /Qinv /inject_Z; cbn [Qnum Qden]; lia.
have [lo hi] := round2_between lo0 hi0.
by split=> //; exact: Z.mod_pos_bound.
Qed.

Lemma work_hours_within_a_day_witness :
  let s := WH.mk "Carl" 19724 61200 28800 (-9.00)%Q in
  s \in work_hours carl_frame /\
  (inject_Z (-24) <= WH.Work_Hours s)%Q /\ (WH.Work_Hours s <= inject_Z 24)%Q.
Proof.
have H: WH.mk "Carl" 19724 61200 28800 (-9.00)%Q \in work_hours carl_frame
  by vm_compute.
split; first exact: H.
by case: (work_hours_within_a_day H).
Defined.

(** X7: a row of employee_work_hours.csv whose group has its latest
    DutyOff not before its earliest DutyOn has a Work_Hours that is not
    negative. *)
Theorem work_hours_nonnegative (df : DataFrame) (s : WH.t) :
  s \in work_hours df ->
  (earliest (timestamps (group df (WH.Name s) (WH.Date s) DutyOn))
   <= latest (timestamps (group df (WH.Name s) (WH.Date s) DutyOff)))%Z ->
  (0 <= WH.Work_Hours s)%Q.
Proof.
case/work_hours_sound=> _ -> /= le.
set x := exact_hours df (WH.Name s) (WH.Date s).
set b := (latest (timestamps (group df (WH.Name s) (WH.Date s) DutyOff))
          - earliest (timestamps (group df (WH.Name s) (WH.Date s) DutyOn)))%Z.
have lo0: (inject_Z 0 <= x)%Q.
  by rewrite /x /exact_hours /Qle /Qdiv /Qmult /Qinv /inject_Z; cbn [Qnum Qden]; lia.
have hi0: (x <= inject_Z b)%Q.
  by rewrite /x /exact_hours /Qle /Qdiv /Qmult /Qinv /inject_Z -/b; cbn [Qnum Qden]; lia.
by have [] := round2_between lo0 hi0.
Qed.

Lemma work_hours_nonnegative_witness :
  let s := WH.mk "Alice" 19723 28800 63000 9.50%Q in
  s \in work_hours alice_frame /\ (0 <= WH.Work_Hours s)%Q.
Proof.
have H: WH.mk "Alice" 19723 28800 63000 9.50%Q \in work_hours alice_frame
  by vm_compute.
split; first exact: H.
by apply: (work_hours_nonnegative H); vm_compute.
Defined.

(** X8: create_csv_reports writes employee_work_hours.csv exactly when
    some employee has, on some date, both a DutyOn and a DutyOff event;
    the file then holds all the work-hours rows. *)
Theorem work_hours_file_written (df : DataFrame) :
  employee_work_hours_csv (create_csv_reports df)
  = if has (fun r => complete df (Name r) (Date r)) df
    then Some (work_hours df) else None.
Proof.
rewrite /create_csv_reports /=.
case H: (has _ df).
  case/hasP: H => r rin C.
  have: session df (Name r) (Date r) \in work_hours df.
    have := sessions_of_group df (Name r) (Date r); rewrite C => E.
    have: session df (Name r) (Date r)
            \in [seq s <- work_hours df
                | (WH.Name s == Name r) && (WH.Date s == Date r)]
      by rewrite E mem_head.
    by rewrite mem_filter => /andP [].
  by case: (work_hours df).
case E: (work_hours df) => [|s l] //.
have: s \in work_hours df by rewrite E mem_head.
case/work_hours_sound=> C _; case/andP: (C) => /present_in_group [r [rin En Ed _]] _.
by move/hasP: H; case; exists r => //; rewrite En Ed.
Qed.

(* --------------------------------------------------------------------- *)
(* dashboard.py: filters and key metrics                                 *)
(* --------------------------------------------------------------------- *)

Lemma filter_if (c : bool) (p : pred Row) (df : DataFrame) :
  (if c then [seq r <- df | p r] else df)
  = [seq r <- df | if c then p r else true].
Proof. by case: c => //; rewrite filter_predT. Qed.

(* The three conditional selections amount to one selection. *)
Lemma apply_filtersE (f : Filters) (df : DataFrame) :
  apply_filters f df = [seq r <- df | passes f r].
Proof.
rewrite /apply_filters.
set c2 := (All \notin _) && _; set c3 := status_filter f != All.
have -> : (if date_range f is [:: start_date; end_date]
           then [seq r <- df | (start_date <=? Date r)%Z && (Date r <=? end_date)%Z]
           else df)
          = [seq r <- df | if date_range f is [:: start_date; end_date]
                           then (start_date <=? Date r)%Z && (Date r <=? end_date)%Z
                           else true].
  by case: (date_range f) => [|s [|e [|x l]]]; rewrite ?filter_predT.
rewrite !filter_if -!filter_predI; apply: eq_filter => r /=.
rewrite /passes -/c2 -/c3.
by case: (if c3 then _ else _); case: (if c2 then _ else _); case: (match _ with [::] => _ | _ => _ end).
Qed.

(** X9: the sidebar filters of the dashboard select rows one by one: the
    filtered frame is a subsequence of the loaded frame (rows kept in
    their order, none added), filtering a second time changes nothing,
    and filtering two frames put end to end filters each of them. *)
Theorem apply_filters_selects (f : Filters) (df : DataFrame) :
  [/\ subseq (apply_filters f df) df,
      apply_filters f (apply_filters f df) = apply_filters f df
    & forall df' : DataFrame,
        apply_filters f (df ++ df') = apply_filters f df ++ apply_filters f df'].
Proof.
split; rewrite !apply_filtersE ?filter_id ?filter_subseq //.
by move=> df'; rewrite !apply_filtersE filter_cat.
Qed.

Lemma series_min_max (s : seq Z) (x : Z) :
  x \in s ->
  exists mn mx, [/\ series_min s = Some mn, series_max s = Some mx,
                    (mn <= x)%Z & (x <= mx)%Z].
Proof.
case: s => [|y s] // xin; exists (foldr Z.min y s), (foldr Z.max y s).
have [m1 m2] := foldr_min_le y s; have [M1 M2] := foldr_max_ge y s.
by move: xin; rewrite in_cons => /orP [/eqP ->|xs]; split=> //; auto.
Qed.

(** X10: with the sidebar at its defaults (the whole date range of the
    data, "All" employees, status "All") the dashboard works on every
    loaded row. *)
Theorem apply_filters_defaults (df : DataFrame) :
  apply_filters (only_status df All) df = df.
Proof.
rewrite apply_filtersE; apply/all_filterP/allP => r rin.
have /series_min_max [mn [mx [Emn Emx lo hi]]] : Date r \in [seq Date r | r <- df].
  exact: map_f.
rewrite /passes /only_status /= Emn Emx /=.
by rewrite andbT; apply/andP; split; apply/Z.leb_le.
Qed.

(** X11: the employee selection is ignored when "All" is among the
    selected entries and when nothing is selected, and the date selection
    is ignored while it does not hold exactly two dates: in these cases
    the rows are filtered as if the selection were left at "All", or
    without a date range. *)
Theorem apply_filters_ignored (dates : seq Z) (selected : seq string)
    (status : string) (df : DataFrame) :
  ((All \in selected) || nilp selected ->
     apply_filters (mkFilters dates selected status) df
     = apply_filters (mkFilters dates [:: All] status) df) /\
  (size dates != 2 ->
     apply_filters (mkFilters dates selected status) df
     = apply_filters (mkFilters [::] selected status) df).
Proof.
split=> H; rewrite !apply_filtersE; apply: eq_filter => r; rewrite /passes /=.
- by rewrite -negb_or H.
- by case: dates H => [|s [|e [|x l]]].
Qed.

Lemma apply_filters_ignored_witness :
  (All \in [:: "Alice"%string; All]) || nilp [:: "Alice"%string; All] /\
  apply_filters (mkFilters [::] [:: "Alice"%string; All] All) (alice_frame ++ bob_frame)
  = apply_filters (mkFilters [::] [:: All] All) (alice_frame ++ bob_frame).
Proof.
split; first by vm_compute.
by apply: (proj1 (apply_filters_ignored [::] [:: "Alice"%string; All] All _)).
Defined.

(* Distinct integers between two bounds. *)
Lemma size_uniq_between (s : seq Z) (a b : Z) :
  (a <= b)%Z -> uniq s -> (forall x, x \in s -> (a <= x <= b)%Z) ->
  (Z.of_nat (size s) <= b - a + 1)%Z.
Proof.
move=> ab U B.
pose f x := Z.to_nat (x - a).
have Uf: uniq [seq f x | x <- s].
  rewrite map_inj_in_uniq // => x1 x2 /B B1 /B B2 E.
  by have := Z2Nat.inj (x1 - a) (x2 - a) ltac:(lia) ltac:(lia) E; lia.
have sub: {subset [seq f x | x <- s] <= iota 0 (Z.to_nat (b - a + 1))}.
  move=> i /mapP [x /B Bx ->]; rewrite mem_iota add0n /=.
  by apply/ltP; rewrite /f; apply/Z2Nat.inj_lt; lia.
have := uniq_leq_size Uf sub; rewrite size_map size_iota => /leP.
lia.
Qed.

Lemma nunique_pos (T : eqType) (s : seq T) : s != [::] -> 0 < nunique s.
Proof.
case: s => [|x s] // _; rewrite /nunique -has_predT; apply/hasP.
by exists x => //; rewrite mem_unique mem_head.
Qed.

Lemma on_off_le_size (df : DataFrame) :
  size [seq r <- df | Status r == DutyOn] + size [seq r <- df | Status r == DutyOff]
  <= size df.
Proof. by rewrite -(count_DutyOn_DutyOff df) !size_filter leq_addr. Qed.

(** X12: on a frame with at least one row the Key Metrics are computed
    without error, and they are consistent: the two status counts
    together do not exceed the record count, the number of employees is
    between 1 and the record count, and "Date Range (Days)" is at least
    the number of distinct dates of the frame. *)
Theorem key_metrics_of_rows (df : DataFrame) :
  df != [::] ->
  exists2 m, key_metrics df = Ok m &
    [/\ total_records m = size df,
        duty_on_count m + duty_off_count m <= total_records m,
        0 < unique_employees m <= total_records m
      & (Z.of_nat (nunique [seq Date r | r <- df]) <= date_range_days m)%Z].
Proof.
case: df => [|r df] // _; rewrite /key_metrics /=.
eexists; first by []; split=> //=.
- exact: (on_off_le_size (r :: df)).
- rewrite (@nunique_pos _ (Name r :: _)) //=.
  by rewrite (leq_trans (size_unique _)) //= size_map.
- have [m1 m2] := foldr_min_le (Date r) [seq Date r | r <- df].
  have [M1 M2] := foldr_max_ge (Date r) [seq Date r | r <- df].
  have := @size_uniq_between (unique (Date r :: [seq Date r | r <- df]))
            (foldr Z.min (Date r) [seq Date r | r <- df])
            (foldr Z.max (Date r) [seq Date r | r <- df])
            ltac:(lia) (unique_uniq _).
  rewrite /nunique; move=> H.
  have: (Z.of_nat (size (unique (Date r :: [seq Date r | r <- df])))
         <= foldr Z.max (Date r) [seq Date r | r <- df]
            - foldr Z.min (Date r) [seq Date r | r <- df] + 1)%Z.
    apply: H => x; rewrite mem_unique in_cons => /orP [/eqP ->|xin]; first by lia.
    by have := m2 _ xin; have := M2 _ xin; lia.
  by [].
Qed.

Lemma key_metrics_of_rows_witness :
  alice_frame != [::] /\
  exists2 m, key_metrics alice_frame = Ok m & total_records m = 2.
Proof.
split; first by [].
have [m E [T _ _ _]] := @key_metrics_of_rows alice_frame isT.
by exists m.
Defined.

(* --------------------------------------------------------------------- *)
(* dashboard.py and create_html_dashboard.py: summary tables             *)
(* --------------------------------------------------------------------- *)

Lemma size_filter_swap (a b : pred Row) (df : DataFrame) :
  size [seq r <- [seq r <- df | a r] | b r]
  = size [seq r <- [seq r <- df | b r] | a r].
Proof. by rewrite -!filter_predI !size_filter; apply: eq_count => r /=; rewrite andbC. Qed.

(** X13: the Daily Summary tab of the dashboard shows, date by date, the
    same employee count and the same DutyOn and DutyOff counts as
    daily_duty_summary.csv computed from the same rows; a date without
    events of a status shows 0 for it; and in every row the two status
    counts together do not exceed Total_Records. *)
Theorem daily_tab_matches_summary (df : DataFrame) :
  [seq (DailyTab.Date t, DailyTab.Unique_Employees t,
        DailyTab.Duty_On_Count t, DailyTab.Duty_Off_Count t)
  | t <- daily_summary_tab df]
  = [seq (Daily.Date d, Daily.Unique_Employees d,
          Daily.Total_DutyOn d, Daily.Total_DutyOff d)
    | d <- daily_summary df]
  /\ all (fun t => DailyTab.Duty_On_Count t + DailyTab.Duty_Off_Count t
                   <= DailyTab.Total_Records t)
         (daily_summary_tab df).
Proof.
rewrite /daily_summary_tab /daily_summary /=; split.
- rewrite -!map_comp; apply: eq_map => date /=.
  by rewrite !map_fillna0_groupby !(size_filter_swap (fun r => Date r == date)).
- rewrite all_map; apply/allP => date _ /=.
  rewrite !map_fillna0_groupby.
  rewrite -!(size_filter_swap (fun r => Date r == date)).
  exact: on_off_le_size.
Qed.

Lemma series_get_groupby (K : eqType) (le : rel K) (key : Row -> K)
    (df : DataFrame) (k : K) :
  series_get (groupby_size le key df) k 0 = size [seq r <- df | key r == k].
Proof. exact: map_fillna0_groupby. Qed.

(* The employee tables of a frame. *)
Lemma employee_tables_of (df : DataFrame) :
  let tab := employee_summary_tab df in
  [/\ [seq EmployeeTab.Name t | t <- tab] = names df,
      sumn [seq EmployeeTab.Total_Records t | t <- tab] = size df,
      [seq (EmployeeTab.Duty_On_Count t, EmployeeTab.Duty_Off_Count t) | t <- tab]
      = [seq (count (fun r => (Name r == n) && (Status r == DutyOn)) df,
              count (fun r => (Name r == n) && (Status r == DutyOff)) df)
        | n <- names df],
      all (fun t => [&& 0 < EmployeeTab.Unique_Days t,
                        EmployeeTab.Unique_Days t <= EmployeeTab.Total_Records t,
                        EmployeeTab.Duty_On_Count t + EmployeeTab.Duty_Off_Count t
                        <= EmployeeTab.Total_Records t
                      & activity_in_order t]) tab
    & html_employee_rows df
      = [seq HtmlRow.mk (EmployeeTab.Name t) (EmployeeTab.Total_Records t)
                        (EmployeeTab.Duty_On_Count t) (EmployeeTab.Duty_Off_Count t)
                        (EmployeeTab.Unique_Days t)
        | t <- tab]].
Proof.
rewrite /= /employee_summary_tab /html_employee_rows /names /=; split.
- by rewrite -map_comp map_id_in.
- rewrite -map_comp -[RHS]count_predT.
  rewrite -(sumn_count_by_key predT (sort_unique_uniq str_le _) (@names_cover df)).
  by congr sumn; apply: eq_map => n /=; rewrite count_predT.
- rewrite -map_comp; apply: eq_map => n /=.
  by rewrite !map_fillna0_groupby -!filter_predI !size_filter.
- rewrite all_map; apply/allP => n; rewrite /sorted_str mem_sort mem_unique /=.
  case/mapP=> r rin En.
  have rg: r \in [seq x <- df | Name x == n] by rewrite mem_filter En eqxx.
  have gN: [seq x <- df | Name x == n] != [::] by case: (filter _ _) rg.
  apply/and4P; split.
  + by apply: nunique_pos; rewrite -size_eq0 size_map size_eq0.
  + by rewrite (leq_trans (size_unique _)) // size_map.
  + rewrite !map_fillna0_groupby -!(size_filter_swap (fun r => Name r == n)).
    exact: on_off_le_size.
  + rewrite /activity_in_order /=.
    case: [seq x <- df | Name x == n] gN => [|y g] //= _.
    have [m1 _] := foldr_min_le (DateTime y) [seq DateTime r | r <- g].
    have [M1 _] := foldr_max_ge (DateTime y) [seq DateTime r | r <- g].
    by apply/Z.leb_le; lia.
- by rewrite -map_comp; apply: eq_map => n /=; rewrite !series_get_groupby !map_fillna0_groupby.
Qed.

(** X14: for a frame that was loaded without a missing cell, with names
    and statuses as text, and for every selection of its rows by the
    sidebar filters: the Employee Summary tab has one row per employee in
    ascending name order; its Total_Records add up to the number of rows
    of the frame; Duty_On_Count and Duty_Off_Count are the numbers of the
    employee's DutyOn and DutyOff rows (0 when there is none); in every
    row Unique_Days is between 1 and Total_Records, the two status counts
    together do not exceed Total_Records, and First_Activity is not after
    Last_Activity.  The employee table of the HTML dashboard holds the
    same numbers. *)
Theorem employee_tables (to_datetime : string -> option Z)
    (csv : seq RawRow) (glob : seq File) (loaded : DataFrame) (f : Filters) :
  loads to_datetime csv glob loaded ->
  let consistent (df : DataFrame) :=
    let tab := employee_summary_tab df in
    [/\ [seq EmployeeTab.Name t | t <- tab] = names df,
        sumn [seq EmployeeTab.Total_Records t | t <- tab] = size df,
        [seq (EmployeeTab.Duty_On_Count t, EmployeeTab.Duty_Off_Count t) | t <- tab]
        = [seq (count (fun r => (Name r == n) && (Status r == DutyOn)) df,
                count (fun r => (Name r == n) && (Status r == DutyOff)) df)
          | n <- names df],
        all (fun t => [&& 0 < EmployeeTab.Unique_Days t,
                          EmployeeTab.Unique_Days t <= EmployeeTab.Total_Records t,
                          EmployeeTab.Duty_On_Count t + EmployeeTab.Duty_Off_Count t
                          <= EmployeeTab.Total_Records t
                        & activity_in_order t]) tab
      & html_employee_rows df
        = [seq HtmlRow.mk (EmployeeTab.Name t) (EmployeeTab.Total_Records t)
                          (EmployeeTab.Duty_On_Count t) (EmployeeTab.Duty_Off_Count t)
                          (EmployeeTab.Unique_Days t)
          | t <- tab]] in
  consistent loaded /\ consistent (apply_filters f loaded).
Proof. by move=> _ /=; split; exact: employee_tables_of. Qed.

Lemma employee_tables_witness :
  loads iso_to_datetime alice_day [::] alice_frame /\
  sumn [seq EmployeeTab.Total_Records t | t <- employee_summary_tab alice_frame]
  = 2.
Proof.
have L : loads iso_to_datetime alice_day [::] alice_frame by left.
split; first exact: L.
by have [[_ -> _ _ _] _] :=
  @employee_tables iso_to_datetime alice_day [::] alice_frame
                   (only_status alice_frame All) L.
Defined.

(* groupby([key, 'Status']).size() on a frame. *)
Lemma groupby_status_counts_of (K : eqType) (leK : rel K) (key : Row -> K)
    (df : DataFrame) :
  let stats := groupby_status_size leK key df in
  [/\ uniq [seq kv.1 | kv <- stats],
      all (fun kv => 0 < kv.2) stats,
      sumn [seq kv.2 | kv <- stats] = size df
    & forall status : string,
        sumn [seq kv.2 | kv <- stats & kv.1.2 == status]
        = count (fun r => Status r == status) df].
Proof.
rewrite /= /groupby_status_size /groupby_size.
set key2 := fun r => (key r, Status r).
set keys := sort _ _.
have Uk: uniq keys by rewrite sort_uniq unique_uniq.
have cover: {subset [seq key2 r | r <- df] <= keys}.
  by move=> k kin; rewrite mem_sort mem_unique.
split.
- by rewrite -map_comp map_id_in.
- rewrite all_map; apply/allP => k; rewrite mem_sort mem_unique /=.
  case/mapP=> r rin ->; rewrite size_filter -has_count.
  by apply/hasP; exists r.
- rewrite -map_comp -[RHS]count_predT -(sumn_count_by_key predT Uk cover).
  by congr sumn; apply: eq_map => k /=; rewrite count_predT.
- move=> status; rewrite filter_map -map_comp /=.
  set ks := [seq k <- keys | _].
  have Uks: uniq ks by rewrite filter_uniq.
  have cov: {subset [seq key2 r | r <- [seq r <- df | Status r == status]] <= ks}.
    move=> k /mapP [r]; rewrite mem_filter => /andP [st rin] ->.
    by rewrite mem_filter /= st; apply: cover; apply: map_f.
  rewrite -size_filter -[RHS]count_predT -(sumn_count_by_key predT Uks cov).
  congr sumn; apply/eq_in_map => k; rewrite mem_filter /= => /andP [/eqP Es _].
  rewrite count_predT -filter_predI; congr size; apply: eq_filter => r /=.
  by case E: (key2 r == k) => //=; rewrite -Es -(eqP E) /= eqxx.
Qed.

(** X15: for a frame that was loaded without a missing cell, and for
    every selection of its rows by the sidebar filters:
    frame.groupby([key, 'Status']).size() (the daily and hourly charts)
    has one entry per (key, status) pair, each with a positive count; the
    counts add up to the number of rows of the frame, whatever their
    statuses; and the entries of one status add up to the number of rows
    of that status. *)
Theorem groupby_status_counts (to_datetime : string -> option Z)
    (csv : seq RawRow) (glob : seq File) (loaded : DataFrame) (f : Filters)
    (K : eqType) (leK : rel K) (key : Row -> K) :
  loads to_datetime csv glob loaded ->
  let consistent (df : DataFrame) :=
    let stats := groupby_status_size leK key df in
    [/\ uniq [seq kv.1 | kv <- stats],
        all (fun kv => 0 < kv.2) stats,
        sumn [seq kv.2 | kv <- stats] = size df
      & forall status : string,
          sumn [seq kv.2 | kv <- stats & kv.1.2 == status]
          = count (fun r => Status r == status) df] in
  consistent loaded /\ consistent (apply_filters f loaded).
Proof. by move=> _ /=; split; exact: groupby_status_counts_of. Qed.

Lemma groupby_status_counts_witness :
  loads iso_to_datetime alice_day [::] alice_frame /\
  sumn [seq kv.2 | kv <- daily_stats alice_frame] = 2.
Proof.
have L : loads iso_to_datetime alice_day [::] alice_frame by left.
split; first exact: L.
by have [[_ _ -> _] _] :=
  @groupby_status_counts iso_to_datetime alice_day [::] alice_frame
                         (only_status alice_frame All) _ int_le Date L.
Defined.

(* --------------------------------------------------------------------- *)
(* employee_lookup.py                                                    *)
(* --------------------------------------------------------------------- *)

Lemma starts_with_append (p : pred ascii) (a b : string) :
  starts_with p a -> starts_with p (append a b).
Proof. by case: a. Qed.

Lemma starts_with_not_NA (s : string) :
  starts_with (predC1 "N"%char) s -> s != NA.
Proof. by case: s => [|c s] //=; apply: contra => /eqP [->]. Qed.

Lemma str_int_starts (z : Z) : starts_with (predC1 "N"%char) (str_int z).
Proof. by rewrite /str_int; case: (N.to_uint _). Qed.

Lemma two_digits_starts (z : Z) : starts_with (predC1 "N"%char) (two_digits z).
Proof. by rewrite /two_digits; case: ifP => // _; exact: str_int_starts. Qed.

Lemma str_time_starts (t : Z) : starts_with (predC1 "N"%char) (str_time t).
Proof. by apply: starts_with_append; exact: two_digits_starts. Qed.

Lemma format_2f_starts (x : Q) : starts_with (predC1 "N"%char) (format_2f x).
Proof.
rewrite /format_2f; case: ifP => // _ /=.
by apply: starts_with_append; exact: str_int_starts.
Qed.

Lemma join_comma_starts (p : pred ascii) (x : string) (xs : seq string) :
  starts_with p x -> starts_with p (join_comma (x :: xs)).
Proof. by case: xs => [|y ys] //=; exact: starts_with_append. Qed.

(* The lookup tool's cells are the dashboard's, with its own
   placeholders. *)
Lemma format_time_listE (records : DataFrame) :
  format_time_list [seq Time r | r <- records]
  = no_records (join_comma (times_or_NA records)).
Proof.
case: records => [|r rs] //; rewrite /format_time_list /times_or_NA /no_records.
rewrite [nilp _]/= [~~ _]/= -map_comp ifN //.
by apply: starts_with_not_NA; apply: join_comma_starts; exact: str_time_starts.
Qed.

Lemma lookup_work_durationE (ons offs : DataFrame) :
  lookup_work_duration ons offs = blank (work_duration ons offs).
Proof.
case: ons => [|on0 ons]; case: offs => [|off0 offs] //.
rewrite /lookup_work_duration /work_duration /blank ifN //.
by apply: starts_with_not_NA; apply: starts_with_append; exact: format_2f_starts.
Qed.

(* Two sorted arrangements of the same rows show the same timestamps. *)
Lemma sorted_perm_DateTime (s1 s2 : DataFrame) :
  perm_eq s1 s2 -> sorted by_DateTime s1 -> sorted by_DateTime s2 ->
  [seq DateTime r | r <- s1] = [seq DateTime r | r <- s2].
Proof.
move=> P S1 S2.
apply: (sorted_eq int_le_trans int_le_antisym); rewrite ?sorted_map //.
exact: perm_map.
Qed.

Lemma work_duration_ext (ons ons' offs offs' : DataFrame) :
  [seq DateTime r | r <- ons] = [seq DateTime r | r <- ons'] ->
  [seq DateTime r | r <- offs] = [seq DateTime r | r <- offs'] ->
  work_duration ons offs = work_duration ons' offs'.
Proof.
case: ons ons' => [|a ons] [|a' ons'] //=.
case: offs offs' => [|b offs] [|b' offs'] //= [Ea _] [Eb Eo].
by rewrite Ea -!(last_map DateTime) Eb Eo.
Qed.

Lemma times_or_NA_ext (records records' : DataFrame) :
  [seq DateTime r | r <- records] = [seq DateTime r | r <- records'] ->
  times_or_NA records = times_or_NA records'.
Proof.
move=> E; rewrite /times_or_NA.
have ->: nilp records = nilp records' by rewrite /nilp -(size_map DateTime) E size_map.
have T (s : DataFrame) :
    [seq str_time (Time r) | r <- s]
    = [seq str_time (z mod 86400)%Z | z <- [seq DateTime r | r <- s]].
  by rewrite -map_comp.
by rewrite !T E.
Qed.

(* Sorting by ['Date', 'DateTime'] orders the rows by DateTime: the date
   is the day of the timestamp. *)
Lemma by_Date_DateTimeE : by_Date_DateTime =2 by_DateTime.
Proof.
move=> r1 r2; rewrite /by_Date_DateTime /by_DateTime.
case: eqP => // /eqP N.
apply/idP/idP => [L|]; first exact: date_lt_DateTime.
by rewrite /int_le /Date => /Z.leb_le L; apply/Z.leb_le; apply: Z.div_le_mono.
Qed.

Lemma by_Date_DateTime_total : total by_Date_DateTime.
Proof. by move=> x y; rewrite !by_Date_DateTimeE; exact: by_DateTime_total. Qed.

Lemma by_Date_DateTime_trans : transitive by_Date_DateTime.
Proof. by move=> y x z; rewrite !by_Date_DateTimeE; exact: by_DateTime_trans. Qed.

Lemma lookup_employee_data_sorted (df : DataFrame) (sel : string) :
  perm_eq (lookup_employee_data df sel) [seq r <- df | Name r == sel] /\
  sorted by_DateTime (lookup_employee_data df sel).
Proof.
rewrite /lookup_employee_data /sort_values_Date_DateTime perm_sort; split=> //.
rewrite -(eq_sorted by_Date_DateTimeE).
exact: (sort_sorted by_Date_DateTime_total).
Qed.

(** X16: whichever entry of the lookup tool's select box is chosen, the
    "No duty records found" warning is never shown.  The blank entry
    gives the landing page, whose record counts add up to the number of
    rows loaded; an employee's entry gives a page whose schedule has one
    row per working day, with at least one working day (so the average
    per day never divides by zero) and a first date not after the
    last. *)
Theorem lookup_selected_employee (df : DataFrame) (selected_employee : string) :
  selected_employee \in lookup_options df ->
  match lookup_main df selected_employee with
  | Landing available =>
      selected_employee = ""%string /\
      sumn [seq kv.2 | kv <- available] = size df
  | NoRecords _ => False
  | Page schedule quick _ =>
      [/\ 0 < total_days quick,
          size schedule = total_days quick,
          average_records_per_day quick
          = Some (inject_Z (Z.of_nat (total_duty_on quick + total_duty_off quick))
                  / inject_Z (Z.of_nat (total_days quick)))%Q
        & exists first last,
            [/\ first_date quick = Some first, last_date quick = Some last
              & (first <= last)%Z]]
  end.
Proof.
rewrite /lookup_options /lookup_main in_cons.
case: eqP => [-> _ /=|_ /=].
  split=> //; rewrite -map_comp.
  rewrite -[RHS]count_predT
          -(sumn_count_by_key predT (sort_unique_uniq str_le _) (@names_cover df)).
  by congr sumn; apply: eq_map => k /=; rewrite count_predT.
rewrite /sorted_str mem_sort mem_unique => /mapP [r rin E].
have [P _] := lookup_employee_data_sorted df selected_employee.
have rin' : r \in lookup_employee_data df selected_employee.
  by rewrite (perm_mem P) mem_filter E eqxx.
have N : lookup_employee_data df selected_employee != [::].
  by apply/eqP=> E0; rewrite E0 in rin'.
rewrite /nilp size_eq0 N /insights /=.
have D : 0 < nunique [seq Date r0 | r0 <- lookup_employee_data df selected_employee].
  by apply: nunique_pos; rewrite -size_eq0 size_map size_eq0.
split=> //.
- by rewrite /lookup_schedule size_map /sorted_int size_sort.
- by rewrite -[_ == 0]negbK -lt0n D.
- have [mn [mx [-> -> lo hi]]] := series_min_max (map_f Date rin').
  by exists mn, mx; split=> //; lia.
Qed.

Lemma lookup_selected_employee_witness :
  ("Alice"%string \in lookup_options alice_frame) /\
  match lookup_main alice_frame "Alice" with
  | Page schedule quick _ => size schedule = total_days quick /\ 0 < total_days quick
  | _ => False
  end.
Proof.
split; first by [].
have [D Sz _ _] := @lookup_selected_employee alice_frame "Alice"%string isT.
exact: (conj Sz D).
Defined.

(** X17: the lookup tool's schedule for an employee shows what the
    dashboard's detailed schedule shows for that employee, row by row:
    the same dates, the same times, the same duration and the same record
    counts.  Only the placeholders differ: where the dashboard writes
    "N/A" the lookup tool writes "No records" for the times and leaves
    the duration blank. *)
Theorem lookup_schedule_matches_dashboard (df : DataFrame)
    (selected_employee : string) :
  [seq (Lookup.Date l, Lookup.Day l, Lookup.Name l, Lookup.Duty_On l,
        Lookup.Duty_Off l, Lookup.Work_Duration l, Lookup.Total_Records l)
  | l <- lookup_schedule selected_employee
           (lookup_employee_data df selected_employee)]
  = [seq (strftime_Ymd (Detail.Date d), strftime_A (Detail.Date d),
          Detail.Name d, no_records (Detail.Duty_On d),
          no_records (Detail.Duty_Off d), blank (Detail.Work_Duration d),
          Detail.Total_Records d)
    | d <- schedule_data selected_employee (employee_data df selected_employee)].
Proof.
rewrite /lookup_schedule /schedule_data -!map_comp.
have [P S] := lookup_employee_data_sorted df selected_employee.
have ->: sorted_int (unique [seq Date r | r <- lookup_employee_data df selected_employee])
       = sorted_int (unique [seq Date r | r <- employee_data df selected_employee]).
  apply: (sort_unique_eq int_le_total int_le_trans int_le_antisym).
  by apply: perm_mem; exact: perm_map.
apply: eq_map => date /=.
set d1 := sort_values_DateTime _; set d2 := sort_values_DateTime _.
have Pd : perm_eq d1 d2.
  rewrite /d1 /d2 /sort_values_DateTime perm_sort perm_sym perm_sort perm_sym.
  exact: perm_filter.
have S1 : sorted by_DateTime d1 by exact: (sort_sorted by_DateTime_total).
have S2 : sorted by_DateTime d2 by exact: (sort_sorted by_DateTime_total).
have E status : [seq DateTime r | r <- d1 & Status r == status]
              = [seq DateTime r | r <- d2 & Status r == status].
  apply: sorted_perm_DateTime; first exact: perm_filter.
  - exact: (sorted_filter by_DateTime_trans).
  - exact: (sorted_filter by_DateTime_trans).
rewrite !format_time_listE lookup_work_durationE (perm_size Pd).
by rewrite !(times_or_NA_ext (E _)) (work_duration_ext (E _) (E _)).
Qed.

Lemma foldr_maxn_ge (s : seq nat) (x : nat) : x \in s -> x <= foldr maxn 0 s.
Proof.
elim: s => [|a s IH] //=; rewrite in_cons leq_max => /orP [/eqP ->|/IH ->].
- by rewrite leqnn.
- by rewrite orbT.
Qed.

Lemma foldr_maxn_mem (s : seq nat) : s != [::] -> foldr maxn 0 s \in s.
Proof.
elim: s => [|a s IH] // _.
case: (altP (s =P [::])) => [->|/IH M]; first by rewrite /= maxn0 mem_head.
rewrite [foldr _ _ _]/=; case: (leqP a (foldr maxn 0 s)) => H.
- by rewrite in_cons M orbT.
- by rewrite mem_head.
Qed.

(* Series.mode() of a non-empty column: its first entry is the smallest
   of the most frequent values. *)
Lemma modeP (xs : seq Z) :
  xs != [::] ->
  exists h rest,
    [/\ mode xs = h :: rest, h \in xs,
        forall y, count_mem y xs <= count_mem h xs
      & forall y, count_mem y xs = count_mem h xs -> (h <= y)%Z].
Proof.
move=> N; rewrite /mode.
set values := sorted_int (unique xs).
set most := foldr maxn 0 _.
have V x : (x \in values) = (x \in xs) by rewrite /values /sorted_int mem_sort mem_unique.
have top y : count_mem y xs <= most.
  case yin: (y \in xs); last by rewrite (count_memPn (negbT yin)).
  by apply: foldr_maxn_ge; apply/mapP; exists y; rewrite ?V.
have /mapP [v0 v0in Ev0] : most \in [seq count_mem v xs | v <- values].
  apply: foldr_maxn_mem; rewrite -size_eq0 size_map size_eq0.
  have [x xin] : exists x, x \in xs.
    by case: (xs) N => [|x ?] // _; exists x; rewrite mem_head.
  by apply/eqP=> E0; move: (V x); rewrite E0 xin.
set modes := [seq v <- values | _].
have Sm : sorted int_le modes.
  by apply: (sorted_filter int_le_trans); exact: (sort_sorted int_le_total).
have v0m : v0 \in modes by rewrite mem_filter v0in -Ev0 eqxx.
case Em: modes v0m Sm => [|h rest] // _ Sm.
have : h \in modes by rewrite Em mem_head.
rewrite mem_filter V => /andP [/eqP Eh hin].
exists h, rest; split=> // [y|y Ey]; first by rewrite Eh.
have yin : y \in xs.
  by rewrite -has_pred1 has_count Ey -has_count has_pred1.
have : y \in modes by rewrite mem_filter V yin Ey Eh eqxx.
rewrite Em in_cons => /orP [/eqP -> |yr]; first exact: Z.le_refl.
move: Sm; rewrite /= (path_sortedE int_le_trans) => /andP [/allP A _].
exact/Z.leb_le/(A y yr).
Qed.

(** X18: the "Most Common Duty On Hour" of the lookup tool is missing
    exactly when the employee has no DutyOn record; otherwise it is an
    hour of the day at which the employee has a DutyOn record, no hour has
    more DutyOn records, and among the hours with as many it is the
    earliest. *)
Theorem most_common_duty_on_hour_spec (employee_data : DataFrame) :
  let on_hour h :=
    count (fun r => (Status r == DutyOn) && (Hour r == h)) employee_data in
  match most_common_duty_on_hour (insights employee_data) with
  | None => ~~ has (fun r => Status r == DutyOn) employee_data
  | Some h =>
      [/\ (0 <= h < 24)%Z, 0 < on_hour h,
          forall h', on_hour h' <= on_hour h
        & forall h', on_hour h' = on_hour h -> (h <= h')%Z]
  end.
Proof.
move=> on_hour; rewrite /insights /=.
set ons := [seq r <- employee_data | Status r == DutyOn].
have C h : count_mem h [seq Hour r | r <- ons] = on_hour h.
  rewrite count_map count_filter; apply: eq_count => r /=.
  by rewrite andbC.
case E: (nilp _); rewrite /nilp size_map size_eq0 in E.
  by rewrite /= has_filter -/ons E.
have N : [seq Hour r | r <- ons] != [::] by rewrite -size_eq0 size_map size_eq0 E.
have [h [rest [-> hin top first]]] := modeP N.
rewrite /=; split.
- case/mapP: hin => r _ ->; rewrite /Hour /Time.
  have := Z.mod_pos_bound (DateTime r) 86400 ltac:(lia) => B.
  split; first by apply: Z.div_pos; lia.
  by apply: Z.div_lt_upper_bound; lia.
- by rewrite -C -has_count has_pred1.
- by move=> h'; rewrite -!C.
- by move=> h'; rewrite -!C; exact: first.
Qed.

(** X19: the "Recent Activity" table of the lookup tool shows the
    employee's latest records: at most five, all five when there are that
    many, in chronological order, and no record left out is later than a
    record shown. *)
Theorem recent_activity_latest (df : DataFrame) (selected_employee : string) :
  let employee_rows := [seq r <- df | Name r == selected_employee] in
  exists older shown : DataFrame,
    [/\ recent_records (lookup_employee_data df selected_employee)
        = [seq (strftime_Ymd (Date r), Status r, Time r) | r <- shown],
        perm_eq (older ++ shown) employee_rows,
        size shown = minn 5 (size employee_rows),
        sorted by_DateTime shown
      & allrel by_DateTime older shown].
Proof.
move=> employee_rows.
have [P S] := lookup_employee_data_sorted df selected_employee.
set data := lookup_employee_data df selected_employee in P S *.
exists (take (size data - 5) data), (drop (size data - 5) data).
split=> //.
- by rewrite cat_take_drop.
- by rewrite size_drop -minnE minnC (perm_size P).
- exact: drop_sorted.
- move: S; rewrite (sorted_pairwise by_DateTime_trans) -{1}(cat_take_drop (size data - 5) data).
  by rewrite pairwise_cat => /and3P [].
Qed.

(* --------------------------------------------------------------------- *)
(* launcher.py                                                           *)
(* --------------------------------------------------------------------- *)

Lemma menu_loop_invalid (w : World) (line : string) (stdin : seq string) :
  ~~ is_choice (strip line) ->
  menu_loop w (line :: stdin)
  = ([:: Input Select_an_option, Print_ Invalid_choice & (menu_loop w stdin).1],
     (menu_loop w stdin).2).
Proof.
rewrite /is_choice !inE !negb_or /=.
case/andP=> /negbTE -> /and5P []; do 5![move/negbTE => ->].
by case: (menu_loop w stdin).
Qed.

(* What a valid choice does reads at most one further line. *)
Lemma menu_loop_valid (w : World) (line : string) (stdin : seq string) :
  is_choice (strip line) ->
  menu_loop w (line :: stdin) = menu_loop w (line :: take 1 stdin).
Proof.
rewrite /is_choice !inE /=.
by do 6![case: eqP => [_ _|_] /=; first by case: stdin => [|l [|l' s]]].
Qed.

(** X20: the launcher acts on the first line that, stripped of blanks, is
    one of 1..6.  Every line before it is answered by one "Invalid
    choice" message and a new prompt, and of the lines after it at most
    one is read. *)
Theorem launcher_first_valid_choice (w : World)
    (invalid : seq string) (line : string) (rest : seq string) :
  all (fun l => ~~ is_choice (strip l)) invalid ->
  is_choice (strip line) ->
  menu_loop w (invalid ++ line :: rest)
  = (flatten [seq [:: Input Select_an_option; Print_ Invalid_choice] | _ <- invalid]
     ++ (menu_loop w (line :: take 1 rest)).1,
     (menu_loop w (line :: take 1 rest)).2).
Proof.
move=> + V; elim: invalid => [_|l invalid IH].
  by rewrite [LHS](menu_loop_valid w rest V); case: (menu_loop _ _).
rewrite [all _ _]/= => /andP [N /IH E].
by rewrite cat_cons (menu_loop_invalid w _ N) E.
Qed.

Ltac launcher_cases stdin :=
  rewrite /start_streamlit /open_html /generate_html /run_analysis;
  repeat match goal with
  | |- context [subprocess_run ?w ?s] => case: (subprocess_run w s) => [? ? ?| |?]
  | |- context [html_file_exists ?w] => case: (html_file_exists w)
  | |- context [?x == 0%Z] => case: (x == 0%Z)
  | |- context [?x == "y"%string] => case: (x == "y"%string)
  | |- context [match stdin with [::] => _ | _ :: _ => _ end] => case: stdin => [|? ?]
  end.

Lemma menu_loop_valid_events (w : World) (line : string) (stdin : seq string) :
  is_choice (strip line) ->
  [/\ count is_Run (menu_loop w (line :: stdin)).1 <= 1,
      count is_Invalid_choice (menu_loop w (line :: stdin)).1 = 0
    & (if (menu_loop w (line :: stdin)).2 is EOFError then true else false) = false].
Proof.
rewrite /is_choice !inE /=.
by do 6![case: eqP => [_ _|_] /=; first by launcher_cases stdin; split].
Qed.

(** X22: in one session the launcher starts at most one script, prints
    "Invalid choice" once for every line typed before the first valid
    choice, and ends with an unhandled EOFError exactly when no line of
    the input is a valid choice. *)
Theorem launcher_session (w : World) (stdin : seq string) :
  let valid (l : string) := is_choice (strip l) in
  [/\ count is_Run (launcher_main w stdin).1 <= 1,
      count is_Invalid_choice (launcher_main w stdin).1 = find valid stdin
    & (if (launcher_main w stdin).2 is EOFError then true else false)
      = ~~ has valid stdin].
Proof.
move=> valid; rewrite /launcher_main.
have -> : (let: (events, ending) := menu_loop w stdin in
           ([:: Print_ Title; Print_ Options] ++ events, ending))
        = ([:: Print_ Title, Print_ Options & (menu_loop w stdin).1],
           (menu_loop w stdin).2) by case: (menu_loop w stdin).
rewrite [(_, _).1]/= [(_, _).2]/= ![count _ (_ :: _)]/= !add0n.
elim: stdin => [|line stdin [IH1 IH2 IH3]] //.
rewrite [find _ _]/= [has _ _]/=; case V: (valid line).
  by have [? ? ?] := menu_loop_valid_events w stdin V.
by rewrite (menu_loop_invalid w _ (negbT V)) /= add0n IH2 IH3.
Qed.

(** X21: the launcher opens the browser in two cases only.  Either the
    first valid choice is 3 and duty_dashboard.html exists; or it is 4,
    create_html_dashboard.py ends with return code 0 and the next line
    typed is y (in either case, blanks around it ignored). *)
Theorem launcher_opens_browser (w : World) (stdin : seq string) :
  has is_Webbrowser_open (launcher_main w stdin).1
  = match drop (find (fun l => is_choice (strip l)) stdin) stdin with
    | line :: rest =>
        if strip line == "3"%string then html_file_exists w
        else if strip line == "4"%string then
          match subprocess_run w create_html_dashboard_py, rest with
          | Completed returncode _ _, answer :: _ =>
              (returncode == 0%Z) && (lower (strip answer) == "y"%string)
          | _, _ => false
          end
        else false
    | [::] => false
    end.
Proof.
rewrite /launcher_main.
have -> : (let: (events, ending) := menu_loop w stdin in
           ([:: Print_ Title; Print_ Options] ++ events, ending))
        = ([:: Print_ Title, Print_ Options & (menu_loop w stdin).1],
           (menu_loop w stdin).2) by case: (menu_loop w stdin).
rewrite [(_, _).1]/= [has _ (_ :: _)]/=.
elim: stdin => [|line stdin IH] //.
rewrite [find _ _]/=; case V: (is_choice (strip line)); last first.
  by rewrite [drop _ _]/= -IH (menu_loop_invalid w _ (negbT V)).
rewrite drop0; move: V {IH}; rewrite /is_choice !inE /=.
by do 6![case: eqP => [E _|_] /=; first by rewrite ?E /=; launcher_cases stdin].
Qed.

Lemma launcher_first_valid_choice_witness :
  let w := mkWorld true (fun _ => Completed 0 "done" "") in
  (menu_loop w [:: "7"; " x "; " 4 "; "Y"; "1"]%string).2 = Returned /\
  has is_Webbrowser_open (menu_loop w [:: "7"; " x "; " 4 "; "Y"; "1"]%string).1.
Proof.
move=> w.
by rewrite (@launcher_first_valid_choice w [:: "7"; " x "]%string " 4 "%string
              [:: "Y"; "1"]%string isT isT).
Defined.

(* --------------------------------------------------------------------- *)
(* Loading several sheets                                                *)
(* --------------------------------------------------------------------- *)

Lemma by_file_name_total : total (relpre fst str_le : rel File).
Proof. by move=> f1 f2; exact: str_le_total. Qed.

Lemma by_file_name_trans : transitive (relpre fst str_le : rel File).
Proof. by move=> f2 f1 f3; exact: str_le_trans. Qed.

(** X23: the frame that load_data and create_html_dashboard build does
    not depend on the order in which glob lists the files: the files are
    read in file-name order.  (The names of the files of a directory are
    distinct.) *)
Theorem read_sheets_any_glob_order (to_datetime : string -> option Z)
    (glob glob' : seq File) :
  uniq [seq f.1 | f <- glob] -> perm_eq glob glob' ->
  read_sheets to_datetime glob = read_sheets to_datetime glob'.
Proof.
move=> U P; rewrite /read_sheets.
suff -> : sort (relpre fst str_le) glob = sort (relpre fst str_le) glob' by [].
apply/perm_sort_inP => //.
- by move=> f1 f2 _ _; exact: by_file_name_total.
- by move=> f2 f1 f3 _ _ _; exact: by_file_name_trans.
- move=> f1 f2 in1 in2 /= le12.
  by apply: (uniq_map_inj_in U) => //; exact: str_le_antisym.
Qed.

Lemma read_sheets_any_glob_order_witness :
  let sheet1 := ("Untitled spreadsheet - Sheet1.csv"%string, alice_day) in
  let sheet2 := ("Untitled spreadsheet - Sheet2.csv"%string, bob_short) in
  read_sheets iso_to_datetime [:: sheet2; sheet1]
  = read_sheets iso_to_datetime [:: sheet1; sheet2].
Proof.
by move=> sheet1 sheet2; apply: read_sheets_any_glob_order.
Defined.

(** X24: when the sheets load as a frame, no cell missing, the frame has
    one row for every row of
    every file, in the order of the files' names and, within a file, of
    its lines: rows that occur in two files are kept twice, and each row
    keeps its ID, Name and Status. *)
Theorem read_sheets_keeps_every_row (to_datetime : string -> option Z)
    (glob : seq File) (df : DataFrame) :
  read_sheets to_datetime glob = Ok df ->
  [/\ [seq (ID r, Name r, Status r) | r <- df]
      = [seq (raw_ID r, raw_Name r, raw_Status r) | r <- sheet_rows glob],
      [seq Some (DateTime r) | r <- df]
      = [seq to_datetime (raw_DateTime r) | r <- sheet_rows glob],
      size df = sumn [seq size f.2 | f <- glob]
    & sorted str_le [seq f.1 | f <- sort (relpre fst str_le) glob]].
Proof.
rewrite read_sheets_spec.
case: (nilp glob) => // /read_duty_csv_Ok [-> _ A].
have Sz : size (sheet_rows glob) = sumn [seq size f.2 | f <- glob].
  rewrite /sheet_rows size_flatten /shape -map_comp.
  rewrite !sumnE !big_map; apply: perm_big.
  by rewrite perm_sort.
split.
- by rewrite -map_comp.
- rewrite -map_comp; apply/eq_in_map => r /(allP A) /=.
  by rewrite /parseable; case: (to_datetime _).
- by rewrite size_map.
- rewrite sorted_map; exact: (sort_sorted by_file_name_total).
Qed.

Lemma read_sheets_keeps_every_row_witness :
  exists2 df : DataFrame,
    read_sheets iso_to_datetime
      [:: ("Untitled spreadsheet - Sheet2.csv"%string, alice_day);
          ("Untitled spreadsheet - Sheet1.csv"%string, alice_day)] = Ok df
    & size df = 4.
Proof.
have E : read_sheets iso_to_datetime
      [:: ("Untitled spreadsheet - Sheet2.csv"%string, alice_day);
          ("Untitled spreadsheet - Sheet1.csv"%string, alice_day)]
    = Ok (alice_frame ++ alice_frame) by vm_compute.
exists (alice_frame ++ alice_frame); first exact: E.
by have [_ _ -> _] := read_sheets_keeps_every_row E.
Defined.
